(** * A shallow embedding of [server.py], the pandoc conversion endpoint

    The handler [RequestHandler.do_POST] is embedded as a function in a small
    state-and-exception monad over a world made of a file system, the bytes
    sent to the client and a log of system calls.  Library calls the handler
    makes ([b64decode], [Path.resolve], [Path.is_relative_to], [dict] merge,
    header lookup) are written out; the network, the JSON parser, the
    temporary directory name and the conversion tool are parameters. *)

From Stdlib Require Import ZArith NArith Ascii String List Lia DecimalString.
From Stdlib.Strings Require Import Byte.
From stdpp Require Import base option list strings gmap.

Local Open Scope string_scope.

(** ** Python [str] and [bytes]

    A [str] is held as the octets of its UTF-8 form, so a character above
    127 stands for (part of) a non-ASCII code point; equality and
    [startswith] on ASCII literals are the same on both forms. *)

Abbreviation bytes := (list byte).

Definition startswith (s p : string) : bool := String.prefix p s.

Definition isascii (s : string) : bool :=
  forallb (fun c => (N_of_ascii c <? 128)%N) (list_ascii_of_string s).

Definition has_nul (s : string) : bool :=
  existsb (fun c => (N_of_ascii c =? 0)%N) (list_ascii_of_string s).

(** [needle in haystack] on two [str]. *)
Fixpoint str_contains (needle hay : string) : bool :=
  String.prefix needle hay ||
  match hay with
  | EmptyString => false
  | String _ rest => str_contains needle rest
  end.

(** [str.lower()] on the ASCII letters, as header names are compared. *)
Definition lower_ascii (c : ascii) : ascii :=
  let n := N_of_ascii c in
  if ((65 <=? n) && (n <=? 90))%N then ascii_of_N (n + 32) else c.

Fixpoint lower (s : string) : string :=
  match s with
  | EmptyString => EmptyString
  | String c rest => String (lower_ascii c) (lower rest)
  end.

(** [str(n)] for a length. *)
Definition str_of_nat (n : nat) : string := NilZero.string_of_uint (Nat.to_uint n).

(** ** [base64]

    [b64encode] is RFC 4648 with padding.  [a2b_base64] follows the loop of
    CPython's [binascii.a2b_base64] in its default, non-strict mode, which is
    what [base64.b64decode(s)] runs after turning a [str] into ASCII bytes. *)

Module Base64.

Local Open Scope N_scope.

Definition alphabet : string :=
  "ABCDEFGHIJKLMNOPQRSTUVWXYZabcdefghijklmnopqrstuvwxyz0123456789+/".

Definition BASE64_PAD : ascii := "="%char.

Definition table_b2a_base64 (n : N) : ascii :=
  match String.get (N.to_nat n) alphabet with
  | Some c => c
  | None => BASE64_PAD
  end.

Definition table_a2b_base64 (c : ascii) : option N :=
  let n := N_of_ascii c in
  if (65 <=? n) && (n <=? 90) then Some (n - 65)
  else if (97 <=? n) && (n <=? 122) then Some (n - 71)
  else if (48 <=? n) && (n <=? 57) then Some (n + 4)
  else if n =? 43 then Some 62
  else if n =? 47 then Some 63
  else None.

(** A store into an [unsigned char]. *)
Definition byte_of_N (n : N) : byte :=
  match Byte.of_N (n mod 256) with
  | Some b => b
  | None => x00
  end.

Definition sextet0 (a : N) : N := N.shiftr a 2.
Definition sextet1 (a b : N) : N := N.lor (N.shiftl (N.land a 3) 4) (N.shiftr b 4).
Definition sextet2 (b c : N) : N := N.lor (N.shiftl (N.land b 15) 2) (N.shiftr c 6).
Definition sextet3 (c : N) : N := N.land c 63.

Fixpoint b64encode (bs : bytes) : string :=
  match bs with
  | [] => EmptyString
  | [a] =>
      let a := Byte.to_N a in
      String (table_b2a_base64 (sextet0 a))
        (String (table_b2a_base64 (sextet1 a 0))
           (String BASE64_PAD (String BASE64_PAD EmptyString)))
  | [a; b] =>
      let a := Byte.to_N a in
      let b := Byte.to_N b in
      String (table_b2a_base64 (sextet0 a))
        (String (table_b2a_base64 (sextet1 a b))
           (String (table_b2a_base64 (sextet2 b 0))
              (String BASE64_PAD EmptyString)))
  | a :: b :: c :: rest =>
      let a := Byte.to_N a in
      let b := Byte.to_N b in
      let c := Byte.to_N c in
      String (table_b2a_base64 (sextet0 a))
        (String (table_b2a_base64 (sextet1 a b))
           (String (table_b2a_base64 (sextet2 b c))
              (String (table_b2a_base64 (sextet3 c)) (b64encode rest))))
  end.

(** The decoding loop: [quad_pos] is the position in the current group of
    four, [leftchar] the bits not yet written, [pads] the run of padding
    characters seen, [out] the bytes written so far, last first.  [None] is
    [binascii.Error]. *)
Fixpoint a2b_loop (s : string) (quad_pos : nat) (leftchar : N) (pads : nat)
    (out : bytes) : option bytes :=
  match s with
  | EmptyString => if Nat.eqb quad_pos 0 then Some (rev out) else None
  | String this_ch rest =>
      if Ascii.eqb this_ch BASE64_PAD then
        if Nat.leb 2 quad_pos then
          if Nat.leb 4 (quad_pos + S pads) then Some (rev out)
          else a2b_loop rest quad_pos leftchar (S pads) out
        else a2b_loop rest quad_pos leftchar pads out
      else
        match table_a2b_base64 this_ch with
        | None => a2b_loop rest quad_pos leftchar pads out
        | Some v =>
            match quad_pos with
            | 0%nat => a2b_loop rest 1 v 0 out
            | 1%nat =>
                a2b_loop rest 2 (N.land v 15) 0
                  (byte_of_N (N.lor (N.shiftl leftchar 2) (N.shiftr v 4)) :: out)
            | 2%nat =>
                a2b_loop rest 3 (N.land v 3) 0
                  (byte_of_N (N.lor (N.shiftl leftchar 4) (N.shiftr v 2)) :: out)
            | _ =>
                a2b_loop rest 0 0 0
                  (byte_of_N (N.lor (N.shiftl leftchar 6) v) :: out)
            end
        end
  end.

Definition a2b_base64 (s : string) : option bytes := a2b_loop s 0 0 0 [].

(** Checks run over all sextets and all pairs of octets. *)
Definition sextet_ok (n : N) : bool :=
  match table_a2b_base64 (table_b2a_base64 n) with
  | Some m => m =? n
  | None => false
  end
  && negb (Ascii.eqb (table_b2a_base64 n) BASE64_PAD)
  && negb (Ascii.eqb (table_b2a_base64 n) ":"%char)
  && (N_of_ascii (table_b2a_base64 n) <? 128).

Definition pair_ok (a b : N) : bool :=
  (sextet0 a <? 64) && (sextet1 a b <? 64) && (sextet2 a b <? 64) && (sextet3 a <? 64)
  && ((N.lor (N.shiftl (sextet0 a) 2) (N.shiftr (sextet1 a b) 4)) mod 256 =? a)
  && (N.land (sextet1 a b) 15 =? N.shiftr b 4)
  && ((N.lor (N.shiftl (N.shiftr a 4) 4) (N.shiftr (sextet2 a b) 2)) mod 256 =? a)
  && (N.land (sextet2 a b) 3 =? N.shiftr b 6)
  && ((N.lor (N.shiftl (N.shiftr a 6) 6) (sextet3 a)) mod 256 =? a).

(** A 7-bit character other than a colon. *)
Definition plain_char (c : ascii) : bool :=
  negb (Ascii.eqb c ":"%char) && (N_of_ascii c <? 128).

End Base64.

Inductive exn : Type :=
  | AttributeError
  | TypeError
  | KeyError
  | ValueError
  | BinasciiError
  | OSError
  | URLError
  | OverflowError
  | MemoryError.

(** [base64.b64decode(s)] on a [str]: non-ASCII text is a [ValueError], a
    broken group a [binascii.Error]. *)
Definition b64decode (s : string) : exn + bytes :=
  if isascii s then
    match Base64.a2b_base64 s with
    | Some bs => inr bs
    | None => inl BinasciiError
    end
  else inl ValueError.


(** ** JSON values and Python dictionaries

    A [json] is the value as the parser read it, object members in the
    order of the text.  [json.loads] builds a [dict] from the members by
    inserting them one after the other, so a repeated key keeps its first
    position and its last value. *)

#[warnings="-register-all"]
Inductive json : Type :=
  | JNull
  | JBool (b : bool)
  | JInt (z : Z)
  | JFloat (literal : string)
  | JStr (s : string)
  | JArr (items : list json)
  | JObj (members : list (string * json)).

(** A [dict] with [str] keys, in insertion order. *)
Abbreviation dict := (list (string * json)).

Fixpoint dict_get (d : dict) (k : string) : option json :=
  match d with
  | [] => None
  | (k', v) :: rest => if String.eqb k' k then Some v else dict_get rest k
  end.

(** [d[k] = v] *)
Fixpoint dict_set (d : dict) (k : string) (v : json) : dict :=
  match d with
  | [] => [(k, v)]
  | (k', v') :: rest =>
      if String.eqb k' k then (k', v) :: rest else (k', v') :: dict_set rest k v
  end.

Fixpoint dict_del (d : dict) (k : string) : dict :=
  match d with
  | [] => []
  | (k', v) :: rest => if String.eqb k' k then rest else (k', v) :: dict_del rest k
  end.

(** [d.update(e)] *)
Definition dict_update (d e : dict) : dict :=
  fold_left (fun acc kv => dict_set acc (fst kv) (snd kv)) e d.

(** The [dict] that [json.loads] makes of an object. *)
Definition py_dict (members : list (string * json)) : dict := dict_update [] members.

(** [{ **d, **e }] *)
Definition dict_merge (d e : dict) : dict := dict_update (dict_update [] d) e.

Abbreviation keys d := (map fst d).

Definition is_str (s : string) (v : json) : bool :=
  match v with
  | JStr s' => String.eqb s' s
  | _ => false
  end.

(** [key in payload], whatever the payload is. *)
Definition py_in (key : string) (payload : json) : exn + bool :=
  match payload with
  | JObj members => inr (bool_decide (is_Some (dict_get (py_dict members) key)))
  | JArr items => inr (existsb (is_str key) items)
  | JStr s => inr (str_contains key s)
  | _ => inl TypeError
  end.

(** [payload.pop(key)] once [key in payload] holds: the value and what is
    left of the payload. *)
Definition py_pop (key : string) (payload : json) : exn + (json * json) :=
  match payload with
  | JObj members =>
      let d := py_dict members in
      match dict_get d key with
      | Some v => inr (v, JObj (dict_del d key))
      | None => inl KeyError
      end
  | JStr _ => inl AttributeError
  | _ => inl TypeError
  end.

(** [payload.pop(key, default)] *)
Definition py_pop_default (key : string) (default : json) (payload : json)
    : exn + (json * json) :=
  match payload with
  | JObj members =>
      let d := py_dict members in
      match dict_get d key with
      | Some v => inr (v, JObj (dict_del d key))
      | None => inr (default, JObj d)
      end
  | JStr _ => inl AttributeError
  | _ => inl TypeError
  end.

(** ** Paths and the file system

    An absolute path is the list of its components.  The file system has no
    symbolic links, so [Path.resolve] is the lexical walk that
    [os.path.realpath] makes. *)

Abbreviation Path := (list string).

Inductive node : Type :=
  | Dir
  | File (content : bytes).

(** [s.split("/")] *)
Fixpoint split_sep (s : string) (cur : string) : list string :=
  match s with
  | EmptyString => [cur]
  | String c rest =>
      if Ascii.eqb c "/"%char then cur :: split_sep rest EmptyString
      else split_sep rest (cur +:+ String c EmptyString)
  end.

Definition walk (acc : Path) (name : string) : Path :=
  if String.eqb name "" || String.eqb name "." then acc
  else if String.eqb name ".." then removelast acc
  else acc ++ [name].

(** [(base / name).resolve()]: an absolute [name] replaces [base]; a NUL in
    the name is a [ValueError]. *)
Definition join_resolve (base : Path) (name : string) : exn + Path :=
  if has_nul name then inl ValueError
  else
    let start := if startswith name "/" then [] else base in
    inr (fold_left walk (split_sep name EmptyString) start).

Definition is_relative_to (p other : Path) : bool := bool_decide (other `prefix_of` p).

Definition parent (p : Path) : option Path :=
  match p with
  | [] => None
  | _ => Some (removelast p)
  end.

(** The limits of the file system on names: a component has at most
    [NAME_MAX] octets and a path, written out with its separators, fewer
    than [PATH_MAX]; beyond them [open] fails with [ENAMETOOLONG].  A
    string of this file is the sequence of octets the file system gets, so
    its length is the length counted. *)
Definition NAME_MAX : nat := 255.
Definition PATH_MAX : nat := 4096.

(** The length of [str(p)]. *)
Definition path_length (p : Path) : nat :=
  match p with
  | [] => 1
  | _ => fold_right (fun c n => S (String.length c) + n) 0 p
  end.

Definition name_fits (p : Path) : bool :=
  forallb (fun c => Nat.leb (String.length c) NAME_MAX) p
  && Nat.ltb (path_length p) PATH_MAX.

(** Can [p] be opened for writing: its name is within the limits, its
    parent is a directory and [p] itself is not one. *)
Definition can_open_wb (fs : gmap Path node) (p : Path) : bool :=
  name_fits p &&
  match fs !! p, parent p with
  | Some Dir, _ => false
  | _, None => false
  | _, Some q => match fs !! q with Some Dir => true | _ => false end
  end.

(** [shutil.rmtree(p)] *)
Definition rmtree_fs (p : Path) (fs : gmap Path node) : gmap Path node :=
  filter (fun kv => ¬ p `prefix_of` kv.1) fs.

(** ** The world and the handler monad *)

Inductive http_out : Type :=
  | Send_response (code : nat)
  | Send_header (keyword value : string)
  | End_headers
  | Wfile_write (data : bytes).

Inductive syscall : Type :=
  | Mkdtemp (p : Path)
  | Mkdir (p : Path)
  | Open_wb (p : Path)
  | Write (p : Path) (data : bytes)
  | Urlopen (url : string)
  | Popen (argv : list string) (cwd : Path)
  | Communicate (returncode : Z) (out err : bytes)
  | Rmtree (p : Path).

Record world : Type := World {
  fs : gmap Path node;
  wire : list http_out;
  calls : list syscall;
}.

Definition send (o : http_out) (w : world) : world :=
  World (fs w) (wire w ++ [o]) (calls w).

Definition call (c : syscall) (w : world) : world :=
  World (fs w) (wire w) (calls w ++ [c]).

Definition set_fs (f : gmap Path node) (w : world) : world :=
  World f (wire w) (calls w).

(** How a piece of the handler ends: it falls through with a value, it
    executes [return], or it raises. *)
Inductive flow (A : Type) : Type :=
  | Val (a : A)
  | Returned
  | Raised (e : exn).
Arguments Val {A} a.
Arguments Returned {A}.
Arguments Raised {A} e.

Definition M (A : Type) : Type := world -> flow A * world.

Definition ret {A} (a : A) : M A := fun w => (Val a, w).

Definition bind {A B} (m : M A) (k : A -> M B) : M B := fun w =>
  match m w with
  | (Val a, w') => k a w'
  | (Returned, w') => (Returned, w')
  | (Raised e, w') => (Raised e, w')
  end.

Definition return_ {A} : M A := fun w => (Returned, w).
Definition raise {A} (e : exn) : M A := fun w => (Raised e, w).
Definition effect (f : world -> world) : M unit := fun w => (Val tt, f w).

Definition lift {A} (r : exn + A) : M A :=
  match r with
  | inl e => raise e
  | inr a => ret a
  end.

#[global] Instance M_ret : MRet M := @ret.
#[global] Instance M_bind : MBind M := fun A B k m => bind m k.

(** [for x in xs: body(x)] *)
Fixpoint for_each {X} (xs : list X) (body : X -> M unit) : M unit :=
  match xs with
  | [] => ret tt
  | x :: rest => bind (body x) (fun _ => for_each rest body)
  end.

(** ** Requests, responses and the outside world *)

(** A request as the handler sees it.  [rfile n] is what
    [self.rfile.read(n)] answers on the connection: the bytes read, or the
    exception raised. *)
Record request : Type := Request {
  path : string;
  headers : list (string * string);
  rfile : Z -> exn + bytes;
}.

(** [name in self.headers] and [self.headers.get(name)]: names compare
    without case, the first matching line wins. *)
Definition headers_contains (name : string) (hs : list (string * string)) : bool :=
  existsb (fun kv => String.eqb (lower (fst kv)) (lower name)) hs.

Fixpoint headers_get (name : string) (hs : list (string * string)) : option string :=
  match hs with
  | [] => None
  | (k, v) :: rest =>
      if String.eqb (lower k) (lower name) then Some v else headers_get name rest
  end.

(** What [json.loads] makes of the body. *)
Inductive parsed : Type :=
  | Parsed (payload : json)
  | JSONDecodeError
  | ParseFault.

(** What the conversion tool leaves behind when it has run. *)
Record completed : Type := Completed {
  returncode : Z;
  stdout : bytes;
  stderr : bytes;
  fs_after : gmap Path node;
}.

(** The public attributes of the object [urlopen] returns for an [http:]
    or [https:] URL, an [http.client.HTTPResponse]; the object returned for
    a [data:] URL has [read] too. *)
Definition response_dir : list string :=
  [ "begin"; "close"; "closed"; "detach"; "fileno"; "flush"; "getcode";
    "getheader"; "getheaders"; "geturl"; "info"; "isatty"; "isclosed"; "peek";
    "read"; "read1"; "readable"; "readinto"; "readinto1"; "readline";
    "readlines"; "seek"; "seekable"; "tell"; "truncate"; "writable"; "write";
    "writelines" ].

Definition response_hasattr (name : string) : bool :=
  existsb (String.eqb name) response_dir.

(** The pieces of at most [chunk_size] bytes a body is cut into. *)
Fixpoint chunks (fuel : nat) (chunk_size : nat) (body : bytes) : list bytes :=
  match fuel, body with
  | S fuel', _ :: _ =>
      firstn chunk_size body :: chunks fuel' chunk_size (skipn chunk_size body)
  | _, _ => []
  end.

Definition iter_content (chunk_size : N) (body : bytes) : list bytes :=
  chunks (length body) (N.to_nat chunk_size) body.

(** The argument vector as [Popen] hands it to [exec]: every argument must
    be a [str] without NUL. *)
Fixpoint fsencode_args (args : list json) : exn + list string :=
  match args with
  | [] => inr []
  | JStr s :: rest =>
      if has_nul s then inl ValueError
      else match fsencode_args rest with
           | inl e => inl e
           | inr l => inr (s :: l)
           end
  | _ :: _ => inl TypeError
  end.

(** ** [RequestHandler.do_POST] *)

Section Handler.

(** [token] is the argument of [create_server] the handler closes over. *)
Variable token : option string.
(** [int(s)] on a [str]; [None] is [ValueError]. *)
Variable int : string -> option Z.
Variable loads : bytes -> parsed.
(** The resolved name [TemporaryDirectory()] picks. *)
Variable tmpdir : Path.
(** The body [urlopen(url)] answers with, or the exception it raises. *)
Variable urlopen : string -> exn + bytes.
(** The run of the conversion tool on an argument vector, in a working
    directory, over a file system; [inl] when it cannot be started. *)
Variable pandoc : list string -> Path -> gmap Path node -> exn + completed.

Definition send_response (code : nat) : M unit := effect (send (Send_response code)).
Definition send_header (keyword value : string) : M unit :=
  effect (send (Send_header keyword value)).
Definition end_headers : M unit := effect (send End_headers).
Definition wfile_write (data : bytes) : M unit := effect (send (Wfile_write data)).

(** [self.send_response(code); self.end_headers(); return] *)
Definition reject {A} (code : nat) : M A :=
  send_response code;; end_headers;; return_.

(** [p.open("wb")]: the file is created or cut to length zero. *)
Definition open_wb (p : Path) : M unit := fun w =>
  let w := call (Open_wb p) w in
  if can_open_wb (fs w) p then (Val tt, set_fs (<[p := File []]> (fs w)) w)
  else (Raised OSError, w).

(** [file.write(data)] on the file opened at [p]. *)
Definition file_write (p : Path) (data : bytes) : M unit := fun w =>
  let w := call (Write p data) w in
  match fs w !! p with
  | Some (File old) => (Val tt, set_fs (<[p := File (old ++ data)]> (fs w)) w)
  | _ => (Raised OSError, w)
  end.

Definition do_urlopen (url : string) : M bytes :=
  effect (call (Urlopen url));; lift (urlopen url).

(** [files_path.mkdir(parents=True)] *)
Definition mkdir (p : Path) : M unit := fun w =>
  let w := call (Mkdir p) w in
  match fs w !! p with
  | Some _ => (Raised OSError, w)
  | None => (Val tt, set_fs (<[p := Dir]> (fs w)) w)
  end.

(** [with TemporaryDirectory() as tmpdir: body]: the directory is made,
    the body runs, and the tree is removed however the body ends. *)
Definition with_TemporaryDirectory (body : Path -> M unit) : M unit := fun w =>
  let w := call (Mkdtemp tmpdir) (set_fs (<[tmpdir := Dir]> (fs w)) w) in
  let '(r, w) := body tmpdir w in
  (r, call (Rmtree tmpdir) (set_fs (rmtree_fs tmpdir (fs w)) w)).

(** The authorization gate, lines 28-39. *)
Definition check_authorization (hs : list (string * string)) : M unit :=
  match token with
  | Some t =>
      if negb (headers_contains "Authorization" hs) then reject 401
      else if negb (bool_decide (headers_get "Authorization" hs = Some ("Bearer " +:+ t)))
      then reject 403
      else mret tt
  | None => mret tt
  end.

(** The checks of the payload, lines 64-90: the handler goes on with
    [files], [extra_files] and [args]. *)
Definition validate (payload : json) : M (dict * dict * list json) :=
  has_files ← lift (py_in "files" payload);
  if negb has_files then reject 400 else
  '(files, payload) ← lift (py_pop "files" payload);
  match files with
  | JObj files =>
      '(extra_files, payload) ← lift (py_pop_default "extra_files" (JObj []) payload);
      match extra_files with
      | JObj extra_files =>
          has_args ← lift (py_in "args" payload);
          if negb has_args then reject 400 else
          '(args, payload) ← lift (py_pop "args" payload);
          match args with
          | JArr args => mret (py_dict files, py_dict extra_files, args)
          | _ => reject 400
          end
      | _ => reject 400
      end
  | _ => reject 400
  end.

(** One turn of the loop over the merged mapping, lines 99-124. *)
Definition materialize (files_path : Path) (entry : string * json) : M unit :=
  let '(file_name, file_content) := entry in
  file_path ← lift (join_resolve files_path file_name);
  if negb (is_relative_to file_path files_path) then reject 400 else
  match file_content with
  | JNull => reject 400
  | JStr file_content =>
      if startswith file_content "data:" then
        open_wb file_path;;
        response ← do_urlopen file_content;
        if response_hasattr "read" then file_write file_path response
        else raise AttributeError
      else if startswith file_content "http:" || startswith file_content "https:" then
        open_wb file_path;;
        response ← do_urlopen file_content;
        if response_hasattr "iter_content" then
          for_each (iter_content (4 * 1024 * 1024) response) (file_write file_path)
        else raise AttributeError
      else
        open_wb file_path;;
        data ← lift (b64decode file_content);
        file_write file_path data
  | _ => raise AttributeError
  end.

(** [Popen([...], cwd=..., stdout=PIPE, stderr=PIPE)] and [communicate()],
    lines 126-138. *)
Definition run_pandoc (args : list json) (files : dict) (files_path : Path)
    : M completed := fun w =>
  match fsencode_args ([JStr "pandoc"] ++ args ++ map JStr (keys files)
                         ++ [JStr "-o"; JStr "-"]) with
  | inl e => (Raised e, w)
  | inr argv =>
      let w := call (Popen argv files_path) w in
      match pandoc argv files_path (fs w) with
      | inl e => (Raised e, w)
      | inr done =>
          (Val done,
           call (Communicate (returncode done) (stdout done) (stderr done))
             (set_fs (fs_after done) w))
      end
  end.

(** Lines 140-151. *)
Definition respond (done : completed) : M unit :=
  if negb (returncode done =? 0)%Z then
    send_response 500;; end_headers;; wfile_write (stderr done);; return_
  else
    send_response 200;;
    send_header "Content-Type" "application/octet-stream";;
    send_header "Content-Length" (str_of_nat (length (stdout done)));;
    end_headers;;
    wfile_write (stdout done).

(** Lines 92-151: the sandbox, the loop and the tool. *)
Definition convert (files extra_files : dict) (args : list json) : M unit :=
  with_TemporaryDirectory (fun tmp_path =>
    let files_path := (tmp_path ++ ["files"])%list in
    mkdir files_path;;
    for_each (dict_merge files extra_files) (materialize files_path);;
    done ← run_pandoc args files files_path;
    respond done).

(** Lines 64-151. *)
Definition handle_payload (payload : json) : M unit :=
  '(files, extra_files, args) ← validate payload;
  convert files extra_files args.

Definition do_POST (self : request) : M unit :=
  if negb (String.eqb (path self) "/") then reject 404 else
  check_authorization (headers self);;
  let content_type := headers_get "Content-Type" (headers self) in
  if negb (bool_decide (content_type = Some "application/json")) then reject 400 else
  content_length ←
    match headers_get "Content-Length" (headers self) with
    | None => raise TypeError
    | Some s => match int s with Some n => mret n | None => raise ValueError end
    end;
  content ← lift (rfile self content_length);
  match loads content with
  | JSONDecodeError => reject 400
  | ParseFault => reject 500
  | Parsed payload => handle_payload payload
  end.

(** The world on entering the [with] block, once the [files] directory is
    made, and on leaving the block. *)
Definition entered (w : world) : world :=
  call (Mkdtemp tmpdir) (set_fs (<[tmpdir := Dir]> (fs w)) w).

Definition sandbox_ready (w : world) : world :=
  let w := call (Mkdir (tmpdir ++ ["files"])%list) (entered w) in
  set_fs (<[(tmpdir ++ ["files"])%list := Dir]> (fs w)) w.

Definition cleaned (w : world) : world :=
  call (Rmtree tmpdir) (set_fs (rmtree_fs tmpdir (fs w)) w).

(** The ways out of lines 92-151. *)
Inductive convert_exit (files extra_files : dict) (args : list json) (w : world)
    : flow unit -> world -> Prop :=
  | exit_mkdir :
      fs (entered w) !! (tmpdir ++ ["files"])%list ≠ None ->
      convert_exit files extra_files args w (Raised OSError)
        (cleaned (call (Mkdir (tmpdir ++ ["files"])%list) (entered w)))
  | exit_loop r w1 :
      fs (entered w) !! (tmpdir ++ ["files"])%list = None ->
      for_each (dict_merge files extra_files) (materialize (tmpdir ++ ["files"])%list)
        (sandbox_ready w) = (r, w1) ->
      r ≠ Val tt ->
      convert_exit files extra_files args w r (cleaned w1)
  | exit_argv e w1 :
      fs (entered w) !! (tmpdir ++ ["files"])%list = None ->
      for_each (dict_merge files extra_files) (materialize (tmpdir ++ ["files"])%list)
        (sandbox_ready w) = (Val tt, w1) ->
      fsencode_args ([JStr "pandoc"] ++ args ++ map JStr (keys files)
                       ++ [JStr "-o"; JStr "-"]) = inl e ->
      convert_exit files extra_files args w (Raised e) (cleaned w1)
  | exit_spawn argv e w1 :
      fs (entered w) !! (tmpdir ++ ["files"])%list = None ->
      for_each (dict_merge files extra_files) (materialize (tmpdir ++ ["files"])%list)
        (sandbox_ready w) = (Val tt, w1) ->
      fsencode_args ([JStr "pandoc"] ++ args ++ map JStr (keys files)
                       ++ [JStr "-o"; JStr "-"]) = inr argv ->
      pandoc argv (tmpdir ++ ["files"])%list (fs w1) = inl e ->
      convert_exit files extra_files args w (Raised e)
        (cleaned (call (Popen argv (tmpdir ++ ["files"])%list) w1))
  | exit_tool argv done w1 r w2 :
      fs (entered w) !! (tmpdir ++ ["files"])%list = None ->
      for_each (dict_merge files extra_files) (materialize (tmpdir ++ ["files"])%list)
        (sandbox_ready w) = (Val tt, w1) ->
      fsencode_args ([JStr "pandoc"] ++ args ++ map JStr (keys files)
                       ++ [JStr "-o"; JStr "-"]) = inr argv ->
      pandoc argv (tmpdir ++ ["files"])%list (fs w1) = inr done ->
      respond done
        (call (Communicate (returncode done) (stdout done) (stderr done))
           (set_fs (fs_after done) (call (Popen argv (tmpdir ++ ["files"])%list) w1)))
        = (r, w2) ->
      convert_exit files extra_files args w r (cleaned w2).

End Handler.

(** ** What is read off a run *)

(** The world once [send_response(code)] and [end_headers()] are done. *)
Definition rejected (code : nat) (w : world) : world :=
  send End_headers (send (Send_response code) w).

(** An outcome reached without falling through, without a call to the
    system and with the file system untouched. *)
Definition early (w : world) (x : flow unit * world) : Prop :=
  fst x <> Val tt /\ calls (snd x) = calls w /\ fs (snd x) = fs w.

(** A file written at the place, and with the bytes, of an entry of the
    merged mapping. *)
Definition materialized_as (urlopen : string -> exn + bytes) (root : Path)
    (file : Path * bytes) (entry : string * json) : Prop :=
  join_resolve root (fst entry) = inr (fst file) /\
  exists s, snd entry = JStr s /\
    (if startswith s "data:" then urlopen s else b64decode s) = inr (snd file).

(** A call the loop over the files may make, with every file it touches
    below [root]. *)
Definition loop_call (root : Path) (c : syscall) : Prop :=
  match c with
  | Open_wb p | Write p _ => root `prefix_of` p
  | Urlopen _ => True
  | _ => False
  end.

(** A call that keeps every file it opens or writes below [root]. *)
Definition writes_within (root : Path) (c : syscall) : Prop :=
  match c with
  | Open_wb p | Write p _ => root `prefix_of` p
  | _ => True
  end.

(** The files written, in order. *)
Fixpoint written (l : list syscall) : list (Path * bytes) :=
  match l with
  | [] => []
  | Write p data :: rest => (p, data) :: written rest
  | _ :: rest => written rest
  end.

(** The tools started, and those waited for. *)
Fixpoint popens (l : list syscall) : list (list string * Path) :=
  match l with
  | [] => []
  | Popen argv cwd :: rest => (argv, cwd) :: popens rest
  | _ :: rest => popens rest
  end.

Fixpoint completions (l : list syscall) : list (Z * bytes * bytes) :=
  match l with
  | [] => []
  | Communicate rc out err :: rest => (rc, out, err) :: completions rest
  | _ :: rest => completions rest
  end.

(** The sandboxes made and removed. *)
Fixpoint sandboxes (l : list syscall) : list Path :=
  match l with
  | [] => []
  | Mkdtemp p :: rest => p :: sandboxes rest
  | _ :: rest => sandboxes rest
  end.

Fixpoint removals (l : list syscall) : list Path :=
  match l with
  | [] => []
  | Rmtree p :: rest => p :: removals rest
  | _ :: rest => removals rest
  end.

(** What the handler sends once the tool has run. *)
Definition tool_response (rc : Z) (out err : bytes) : list http_out :=
  if (rc =? 0)%Z then
    [ Send_response 200;
      Send_header "Content-Type" "application/octet-stream";
      Send_header "Content-Length" (str_of_nat (length out));
      End_headers;
      Wfile_write out ]
  else [ Send_response 500; End_headers; Wfile_write err ].

(** The header lines left when those named [name] are taken out. *)
Definition without_header (name : string) (hs : list (string * string))
    : list (string * string) :=
  List.filter (fun kv => negb (String.eqb (lower (fst kv)) (lower name))) hs.

(** ** The payload check as the specification words it

    Rejected when [files] is absent or not a mapping, or [extra_files] is
    present and not a mapping, or [args] is absent or not a sequence of
    strings. *)

Definition is_mapping (v : json) : bool :=
  match v with
  | JObj _ => true
  | _ => false
  end.

Definition is_string (v : json) : bool :=
  match v with
  | JStr _ => true
  | _ => false
  end.

Definition is_sequence_of_strings (v : json) : bool :=
  match v with
  | JArr items => forallb is_string items
  | _ => false
  end.

Definition member (payload : json) (key : string) : option json :=
  match payload with
  | JObj members => dict_get (py_dict members) key
  | _ => None
  end.

Definition spec_rejects (payload : json) : bool :=
  match member payload "files" with
  | Some v => negb (is_mapping v)
  | None => true
  end
  || match member payload "extra_files" with
     | Some v => negb (is_mapping v)
     | None => false
     end
  || match member payload "args" with
     | Some v => negb (is_sequence_of_strings v)
     | None => true
     end.

(** ** A concrete outside world, for the examples *)

Module Demo.

Definition tmpdir : Path := ["tmp"; "tmpk3x9q"].
Definition files_path : Path := ["tmp"; "tmpk3x9q"; "files"].

Definition int (s : string) : option Z := Some 0%Z.

(** Every URL answers with the two bytes [hi]. *)
Definition urlopen (url : string) : exn + bytes := inr [x68; x69].

(** A tool that prints the file named by its last input, and fails when
    there is none. *)
Definition pandoc (argv : list string) (cwd : Path) (f : gmap Path node)
    : exn + completed :=
  match f !! (cwd ++ [nth (length argv - 3) argv ""])%list with
  | Some (File content) => inr (Completed 0 content [] f)
  | _ => inr (Completed 1 [] [x3f] f)
  end.

Definition world0 : world := World ∅ [] [].

(** A connection with [content] left to read and then closed, on a machine
    that has room for a body of fewer than [2^31] octets: the answers of
    [BufferedReader.read]. *)
Definition reader (content : bytes) (n : Z) : exn + bytes :=
  if (n =? -1)%Z then inr content
  else if (n <? -1)%Z then inl ValueError
  else if (2 ^ 63 - 1 <=? n)%Z then inl OverflowError
  else if (2 ^ 31 <=? n)%Z then inl MemoryError
  else inr (firstn (Z.to_nat n) content).

Definition json_request : request :=
  Request "/" [("Content-Type", "application/json"); ("Content-Length", "0")] (reader []).

Definition run (token : option string) (payload : json) (self : request)
    : flow unit * world :=
  do_POST token int (fun _ => Parsed payload) tmpdir urlopen pandoc self world0.

Definition title : bytes := [x23; x20; x54; x69; x74; x6c; x65].

End Demo.
(** ** More that is read off a run *)

(** The status lines sent. *)
Fixpoint statuses (l : list http_out) : list nat :=
  match l with
  | [] => []
  | Send_response code :: rest => code :: statuses rest
  | _ :: rest => statuses rest
  end.

(** The bytes last written to [p], if any. *)
Fixpoint last_write (p : Path) (l : list (Path * bytes)) : option bytes :=
  match l with
  | [] => None
  | (q, data) :: rest =>
      match last_write p rest with
      | Some later => Some later
      | None => if bool_decide (q = p) then Some data else None
      end
  end.

(** Nothing exists at or below [root]. *)
Definition fresh (root : Path) (f : gmap Path node) : Prop :=
  forall q, root `prefix_of` q -> f !! q = None.

(** No directory lies strictly below [root]. *)
Definition flat (root : Path) (f : gmap Path node) : Prop :=
  forall q, root `prefix_of` q -> q <> root -> f !! q <> Some Dir.

(** A tool that leaves alone what lies outside [root]. *)
Definition keeps_outside (root : Path)
    (tool : list string -> Path -> gmap Path node -> exn + completed) : Prop :=
  forall argv cwd f done, tool argv cwd f = inr done ->
    forall q, ~ root `prefix_of` q -> fs_after done !! q = f !! q.

(** The characters [a2b_base64] looks at: the alphabet and the padding. *)
Definition significant (c : ascii) : bool :=
  Ascii.eqb c Base64.BASE64_PAD ||
  match Base64.table_a2b_base64 c with
  | Some _ => true
  | None => false
  end.

(** A descriptor with every other character taken out. *)
Fixpoint strip (s : string) : string :=
  match s with
  | EmptyString => EmptyString
  | String c rest => if significant c then String c (strip rest) else strip rest
  end.

(** What the decoder may still write for the characters read so far, in
    quarters of a byte, at each position in a group of four. *)
Definition credit (quad_pos : nat) : nat :=
  match quad_pos with
  | 0 => 0
  | 1 => 3
  | 2 => 2
  | _ => 1
  end.

(** Lines 41-151: what [do_POST] does once the path and the authorization
    are settled. *)
Definition after_authorization (int : string -> option Z) (loads : bytes -> parsed)
    (tmpdir : Path) (urlopen : string -> exn + bytes)
    (pandoc : list string -> Path -> gmap Path node -> exn + completed)
    (self : request) : M unit :=
  let content_type := headers_get "Content-Type" (headers self) in
  if negb (bool_decide (content_type = Some "application/json")) then reject 400 else
  content_length ←
    match headers_get "Content-Length" (headers self) with
    | None => raise TypeError
    | Some s => match int s with Some n => mret n | None => raise ValueError end
    end;
  content ← lift (rfile self content_length);
  match loads content with
  | JSONDecodeError => reject 400
  | ParseFault => reject 500
  | Parsed payload => handle_payload tmpdir urlopen pandoc payload
  end.

(** The request carries what the configured token asks for. *)
Definition authorized (token : option string) (self : request) : Prop :=
  match token with
  | None => True
  | Some t => headers_get "Authorization" (headers self) = Some ("Bearer " +:+ t)
  end.

(** * Theorems *)

(** ** The library models at known values

    The values on the right are what CPython 3.11 answers. *)

Example b64decode_title :
  b64decode "IyBUaXRsZQ==" = inr [x23; x20; x54; x69; x74; x6c; x65].
Proof. reflexivity. Qed.

Example b64decode_skips_foreign_characters : b64decode "A A:A.A" = inr [x00; x00; x00].
Proof. reflexivity. Qed.

Example b64decode_data_after_padding : b64decode "AA=x=" = inr [x00; x0c].
Proof. reflexivity. Qed.

Example b64decode_stops_at_padding : b64decode "AA==AAAA" = inr [x00].
Proof. reflexivity. Qed.

Example b64decode_one_character : b64decode "A" = inl BinasciiError.
Proof. reflexivity. Qed.

Example b64decode_incorrect_padding : b64decode "AA=A" = inl BinasciiError.
Proof. reflexivity. Qed.

Example b64decode_not_ascii : b64decode (String (ascii_of_N 233) "") = inl ValueError.
Proof. reflexivity. Qed.

Example resolve_parent : join_resolve ["tmp"; "t"; "files"] "../x" = inr ["tmp"; "t"; "x"].
Proof. reflexivity. Qed.

Example resolve_absolute : join_resolve ["tmp"; "t"; "files"] "//etc/passwd" = inr ["etc"; "passwd"].
Proof. reflexivity. Qed.

Example resolve_inside : join_resolve ["tmp"; "t"; "files"] "a//b/./../c/" = inr ["tmp"; "t"; "files"; "a"; "c"].
Proof. reflexivity. Qed.

Example resolve_above_root : join_resolve ["tmp"; "t"; "files"] "../../../../.." = inr [].
Proof. reflexivity. Qed.

Example resolve_nul : join_resolve ["tmp"; "t"; "files"] (String zero "") = inl ValueError.
Proof. reflexivity. Qed.

Example merge_order :
  dict_merge [("a", JInt 1); ("b", JInt 2)] [("c", JInt 5); ("a", JInt 9)]
  = [("a", JInt 9); ("b", JInt 2); ("c", JInt 5)].
Proof. reflexivity. Qed.

Example loads_repeated_key :
  py_dict [("a", JInt 1); ("b", JInt 2); ("a", JInt 3)] = [("a", JInt 3); ("b", JInt 2)].
Proof. reflexivity. Qed.

(** ** Base64: decoding an encoding *)

Module Base64Facts.
Import Base64.
Local Open Scope N_scope.

Lemma forall_below (k : nat) (P : N -> bool) :
  forallb P (map N.of_nat (seq 0 k)) = true ->
  forall n, n < N.of_nat k -> P n = true.
Proof.
  intros H n Hn. rewrite forallb_forall in H. apply H.
  apply in_map_iff. exists (N.to_nat n). split; [lia|].
  apply in_seq. lia.
Qed.

Lemma sextet_ok_all n : n < 64 -> sextet_ok n = true.
Proof. apply (forall_below 64). vm_compute. reflexivity. Qed.

Lemma pair_ok_all a b : a < 256 -> b < 256 -> pair_ok a b = true.
Proof.
  intros Ha Hb.
  assert (H : forallb (fun a => forallb (pair_ok a) (map N.of_nat (seq 0 256)))
                (map N.of_nat (seq 0 256)) = true) by (vm_compute; reflexivity).
  pose proof (forall_below 256 _ H a Ha) as H1. cbv beta in H1.
  exact (forall_below 256 _ H1 b Hb).
Qed.

Lemma byte_of_to_N (x : N) (a : byte) : x mod 256 = Byte.to_N a -> byte_of_N x = a.
Proof. intros H. unfold byte_of_N. rewrite H, Byte.of_to_N. reflexivity. Qed.

Lemma to_N_lt (a : byte) : Byte.to_N a < 256.
Proof. pose proof (Byte.to_N_bounded a). lia. Qed.

Lemma list_ind3 {A} (P : list A -> Prop) :
  P [] -> (forall a, P [a]) -> (forall a b, P [a; b]) ->
  (forall a b c l, P l -> P (a :: b :: c :: l)) ->
  forall l, P l.
Proof.
  intros H0 H1 H2 H3.
  fix IH 1. intros [|a [|b [|c l]]]; [exact H0 | apply H1 | apply H2 | apply H3, IH].
Qed.

Ltac pair_facts a b :=
  let H := fresh "H" in
  pose proof (pair_ok_all (Byte.to_N a) (Byte.to_N b) (to_N_lt a) (to_N_lt b)) as H;
  unfold pair_ok in H;
  repeat (apply andb_prop in H; destruct H as [H ?]);
  repeat match goal with
         | X : N.eqb _ _ = true |- _ => apply N.eqb_eq in X
         | X : N.ltb _ _ = true |- _ => apply N.ltb_lt in X
         end.

Lemma a2b_char (n : N) s qp lc pads out :
  n < 64 ->
  a2b_loop (String (table_b2a_base64 n) s) qp lc pads out =
  match qp with
  | 0%nat => a2b_loop s 1 n 0 out
  | 1%nat =>
      a2b_loop s 2 (N.land n 15) 0
        (byte_of_N (N.lor (N.shiftl lc 2) (N.shiftr n 4)) :: out)
  | 2%nat =>
      a2b_loop s 3 (N.land n 3) 0
        (byte_of_N (N.lor (N.shiftl lc 4) (N.shiftr n 2)) :: out)
  | _ => a2b_loop s 0 0 0 (byte_of_N (N.lor (N.shiftl lc 6) n) :: out)
  end.
Proof.
  intros Hn. pose proof (sextet_ok_all n Hn) as H. unfold sextet_ok in H.
  repeat (apply andb_prop in H; destruct H as [H ?]).
  cbn [a2b_loop].
  destruct (Ascii.eqb (table_b2a_base64 n) BASE64_PAD); [discriminate|].
  destruct (table_a2b_base64 (table_b2a_base64 n)) as [m|]; [|discriminate].
  apply N.eqb_eq in H. subst m. reflexivity.
Qed.

Ltac use_land :=
  repeat match goal with
         | X : N.land _ _ = _ |- _ => rewrite X; clear X
         end.

Lemma a2b_loop_b64encode (bs : bytes) : forall lc pads out,
  a2b_loop (b64encode bs) 0 lc pads out = Some (rev out ++ bs)%list.
Proof.
  induction bs as [|a|a b|a b c l IH] using list_ind3; intros lc pads out.
  - cbn. rewrite app_nil_r. reflexivity.
  - pose proof (to_N_lt x00) as H0. change (Byte.to_N x00) with 0 in H0.
    pair_facts a x00. change (Byte.to_N x00) with 0 in *.
    cbn [b64encode]. rewrite !a2b_char by assumption. cbn.
    rewrite (byte_of_to_N _ a) by assumption. reflexivity.
  - pair_facts a b. pair_facts b x00. change (Byte.to_N x00) with 0 in *.
    cbn [b64encode]. rewrite !a2b_char by assumption. cbn.
    use_land.
    rewrite (byte_of_to_N _ a), (byte_of_to_N _ b) by assumption.
    rewrite <- app_assoc. reflexivity.
  - pair_facts a b. pair_facts b c. pair_facts c c.
    cbn [b64encode]. rewrite !a2b_char by assumption.
    rewrite IH. cbn [rev]. use_land.
    rewrite (byte_of_to_N _ a), (byte_of_to_N _ b), (byte_of_to_N _ c) by assumption.
    rewrite <- !app_assoc. reflexivity.
Qed.

Lemma a2b_base64_b64encode (bs : bytes) : a2b_base64 (b64encode bs) = Some bs.
Proof. unfold a2b_base64. rewrite a2b_loop_b64encode. reflexivity. Qed.

Lemma plain_b2a n : n < 64 -> plain_char (table_b2a_base64 n) = true.
Proof.
  intros Hn. pose proof (sextet_ok_all n Hn) as H. unfold sextet_ok in H.
  repeat (apply andb_prop in H; destruct H as [H ?]).
  unfold plain_char. apply andb_true_intro; split; assumption.
Qed.

Lemma b64encode_plain (bs : bytes) :
  forallb plain_char (list_ascii_of_string (b64encode bs)) = true.
Proof.
  induction bs as [|a|a b|a b c l IH] using list_ind3.
  - reflexivity.
  - pose proof (to_N_lt x00) as H0. change (Byte.to_N x00) with 0 in H0.
    pair_facts a x00. change (Byte.to_N x00) with 0 in *.
    cbn [b64encode list_ascii_of_string forallb].
    rewrite !plain_b2a by assumption. reflexivity.
  - pair_facts a b. pair_facts b x00. change (Byte.to_N x00) with 0 in *.
    cbn [b64encode list_ascii_of_string forallb].
    rewrite !plain_b2a by assumption. reflexivity.
  - pair_facts a b. pair_facts b c. pair_facts c c.
    cbn [b64encode list_ascii_of_string forallb].
    rewrite !plain_b2a by assumption. rewrite IH. reflexivity.
Qed.

End Base64Facts.

(** ** Facts on [b64decode] *)

Lemma prefix_chars (p s : string) :
  String.prefix p s = true ->
  forall c, In c (list_ascii_of_string p) -> In c (list_ascii_of_string s).
Proof.
  revert s. induction p as [|a p IH]; intros s H c Hc; [destruct Hc|].
  destruct s as [|b s]; [discriminate|]. cbn in H.
  destruct (ascii_dec a b) as [->|]; [|discriminate].
  cbn in *. destruct Hc as [->|Hc]; [left; reflexivity|right; eauto].
Qed.

Lemma b64encode_no_colon (bs : bytes) (p : string) :
  In ":"%char (list_ascii_of_string p) -> startswith (Base64.b64encode bs) p = false.
Proof.
  intros Hp. unfold startswith.
  destruct (String.prefix p (Base64.b64encode bs)) eqn:E; [|reflexivity].
  pose proof (prefix_chars _ _ E _ Hp) as Hin.
  pose proof (Base64Facts.b64encode_plain bs) as Hall.
  rewrite forallb_forall in Hall. apply Hall in Hin. discriminate.
Qed.

Lemma b64encode_isascii (bs : bytes) : isascii (Base64.b64encode bs) = true.
Proof.
  unfold isascii. apply forallb_forall. intros c Hc.
  pose proof (Base64Facts.b64encode_plain bs) as Hall.
  rewrite forallb_forall in Hall. apply Hall in Hc.
  unfold Base64.plain_char in Hc. apply andb_prop in Hc. tauto.
Qed.

Lemma b64decode_b64encode (bs : bytes) : b64decode (Base64.b64encode bs) = inr bs.
Proof.
  unfold b64decode.
  rewrite b64encode_isascii, Base64Facts.a2b_base64_b64encode. reflexivity.
Qed.

(** ** Facts on dictionaries *)

Section DictFacts.

Implicit Types (d e : dict) (k : string) (v : json).

Lemma elem_of_keys d k v : (k, v) ∈ d -> k ∈ keys d.
Proof.
  induction d as [|[k' v'] d IH]; cbn; intros H; [inversion H|].
  apply elem_of_cons in H as [[= -> ->]|H]; [left | right; auto].
Qed.

Lemma dict_get_None d k : dict_get d k = None <-> k ∉ keys d.
Proof.
  induction d as [|[k' v'] d IH]; cbn.
  - split; [intros _; apply not_elem_of_nil | reflexivity].
  - rewrite not_elem_of_cons. destruct (String.eqb_spec k' k) as [->|Hne].
    + split; [discriminate | intros [[] _]; reflexivity].
    + rewrite IH. split; [intros H; split; [congruence | exact H] | tauto].
Qed.

Lemma dict_set_fresh d k v : k ∉ keys d -> dict_set d k v = (d ++ [(k, v)])%list.
Proof.
  induction d as [|[k' v'] d IH]; cbn; intros H; [reflexivity|].
  apply not_elem_of_cons in H as [Hne H].
  destruct (String.eqb_spec k' k) as [->|_]; [congruence|].
  rewrite IH by assumption. reflexivity.
Qed.

Lemma keys_dict_set d k v :
  keys (dict_set d k v) = if bool_decide (k ∈ keys d) then keys d else (keys d ++ [k])%list.
Proof.
  induction d as [|[k' v'] d IH]; cbn; [reflexivity|].
  destruct (String.eqb_spec k' k) as [->|Hne]; cbn.
  - rewrite bool_decide_eq_true_2 by left. reflexivity.
  - rewrite IH. destruct (bool_decide (k ∈ keys d)) eqn:E.
    + rewrite bool_decide_eq_true_2; [reflexivity|].
      right. eapply bool_decide_eq_true_1, E.
    + rewrite bool_decide_eq_false_2; [reflexivity|].
      apply bool_decide_eq_false_1 in E. rewrite not_elem_of_cons. split; congruence.
Qed.

Lemma dict_get_set d k v k' :
  dict_get (dict_set d k v) k' = if String.eqb k k' then Some v else dict_get d k'.
Proof.
  induction d as [|[k0 v0] d IH]; cbn; [reflexivity|].
  destruct (String.eqb_spec k0 k) as [->|Hne]; cbn.
  - destruct (String.eqb_spec k k'); reflexivity.
  - rewrite IH. destruct (String.eqb_spec k0 k') as [->|]; [|reflexivity].
    destruct (String.eqb_spec k k'); [congruence|reflexivity].
Qed.

Lemma NoDup_dict_set d k v : NoDup (keys d) -> NoDup (keys (dict_set d k v)).
Proof.
  intros H. rewrite keys_dict_set. case_bool_decide as Hk; [assumption|].
  apply NoDup_app. split_and!; [assumption | | apply NoDup_singleton].
  intros x Hx Hx'. apply list_elem_of_singleton in Hx'. congruence.
Qed.

Lemma elem_of_keys_dict_set d k v x :
  x ∈ keys (dict_set d k v) <-> x ∈ keys d ∨ x = k.
Proof.
  rewrite keys_dict_set. case_bool_decide as Hk.
  - split; [tauto | intros [?| ->]; assumption].
  - rewrite elem_of_app, list_elem_of_singleton. reflexivity.
Qed.

Lemma NoDup_dict_update d e : NoDup (keys d) -> NoDup (keys (dict_update d e)).
Proof.
  unfold dict_update. revert d.
  induction e as [|[k v] e IH]; cbn; intros d H; [assumption|].
  apply IH, NoDup_dict_set, H.
Qed.

Lemma elem_of_keys_dict_update d e x :
  x ∈ keys (dict_update d e) <-> x ∈ keys d ∨ x ∈ keys e.
Proof.
  unfold dict_update. revert d.
  induction e as [|[k v] e IH]; cbn; intros d.
  - rewrite elem_of_nil. tauto.
  - rewrite IH, elem_of_keys_dict_set, elem_of_cons. tauto.
Qed.

Lemma dict_get_update d e k :
  NoDup (keys e) ->
  dict_get (dict_update d e) k =
  match dict_get e k with
  | Some v => Some v
  | None => dict_get d k
  end.
Proof.
  unfold dict_update. revert d.
  induction e as [|[k0 v0] e IH]; cbn; intros d Hnd; [reflexivity|].
  apply NoDup_cons in Hnd as [Hk Hnd].
  rewrite IH by assumption. rewrite dict_get_set.
  destruct (String.eqb_spec k0 k) as [->|Hne]; [|reflexivity].
  apply dict_get_None in Hk. rewrite Hk. reflexivity.
Qed.

Lemma dict_update_app d e : NoDup (keys (d ++ e)) -> dict_update d e = (d ++ e)%list.
Proof.
  unfold dict_update. revert d.
  induction e as [|[k v] e IH]; cbn; intros d Hnd; [rewrite app_nil_r; reflexivity|].
  assert (Hk : k ∉ keys d).
  { rewrite map_app in Hnd. apply NoDup_app in Hnd as (_ & Hd & _).
    intros Hin. apply (Hd k Hin). left. }
  rewrite dict_set_fresh by assumption.
  rewrite IH; rewrite <- app_assoc; [reflexivity | exact Hnd].
Qed.

Lemma NoDup_py_dict members : NoDup (keys (py_dict members)).
Proof. apply NoDup_dict_update, NoDup_nil_2. Qed.

Lemma py_dict_id d : NoDup (keys d) -> py_dict d = d.
Proof. intros H. unfold py_dict. rewrite dict_update_app; [reflexivity | exact H]. Qed.

Lemma py_dict_idemp members : py_dict (py_dict members) = py_dict members.
Proof. apply py_dict_id, NoDup_py_dict. Qed.

Lemma keys_dict_del_sub d k x : x ∈ keys (dict_del d k) -> x ∈ keys d.
Proof.
  induction d as [|[k' v'] d IH]; cbn; [auto|].
  destruct (String.eqb_spec k' k) as [->|Hne]; cbn.
  - intros H. right. exact H.
  - rewrite !elem_of_cons. intros [->|H]; [left; reflexivity | right; auto].
Qed.

Lemma NoDup_dict_del d k : NoDup (keys d) -> NoDup (keys (dict_del d k)).
Proof.
  induction d as [|[k' v'] d IH]; cbn; intros H; [assumption|].
  apply NoDup_cons in H as [Hk H].
  destruct (String.eqb_spec k' k) as [->|Hne]; cbn; [assumption|].
  apply NoDup_cons. split; [|auto].
  intros Hin. apply Hk. eapply keys_dict_del_sub, Hin.
Qed.

Lemma dict_get_del_ne d k k' : k ≠ k' -> dict_get (dict_del d k) k' = dict_get d k'.
Proof.
  intros Hne. induction d as [|[k0 v0] d IH]; cbn; [reflexivity|].
  destruct (String.eqb_spec k0 k) as [->|Hne0]; cbn.
  - destruct (String.eqb_spec k k'); [congruence | reflexivity].
  - rewrite IH. reflexivity.
Qed.

Lemma dict_merge_eq d e : NoDup (keys d) -> dict_merge d e = dict_update d e.
Proof. intros H. unfold dict_merge. fold (py_dict d). rewrite py_dict_id by assumption. reflexivity. Qed.

End DictFacts.

(** ** The handler, step by step *)

Ltac run_monad :=
  cbv beta iota zeta delta
    [mbind M_bind mret M_ret reject send_response send_header end_headers
     wfile_write do_urlopen bind ret return_ raise effect lift].

Lemma response_has_read : response_hasattr "read" = true.
Proof. reflexivity. Qed.

Lemma response_no_iter_content : response_hasattr "iter_content" = false.
Proof. reflexivity. Qed.

Section HandlerFacts.

Context (token : option string) (int : string -> option Z) (loads : bytes -> parsed)
  (tmpdir : Path) (urlopen : string -> exn + bytes)
  (pandoc : list string -> Path -> gmap Path node -> exn + completed).

Lemma materialize_eq fp name content w :
  materialize urlopen fp (name, content) w =
  match join_resolve fp name with
  | inl e => (Raised e, w)
  | inr p =>
      if is_relative_to p fp then
        match content with
        | JNull => (Returned, rejected 400 w)
        | JStr s =>
            if can_open_wb (fs w) p then
              let w1 := set_fs (<[p := File []]> (fs w)) (call (Open_wb p) w) in
              if startswith s "data:" then
                match urlopen s with
                | inl e => (Raised e, call (Urlopen s) w1)
                | inr body =>
                    (Val tt, set_fs (<[p := File body]> (fs w))
                               (call (Write p body) (call (Urlopen s) w1)))
                end
              else if startswith s "http:" || startswith s "https:" then
                match urlopen s with
                | inl e => (Raised e, call (Urlopen s) w1)
                | inr _ => (Raised AttributeError, call (Urlopen s) w1)
                end
              else
                match b64decode s with
                | inl e => (Raised e, w1)
                | inr data =>
                    (Val tt, set_fs (<[p := File data]> (fs w)) (call (Write p data) w1))
                end
            else (Raised OSError, call (Open_wb p) w)
        | _ => (Raised AttributeError, w)
        end
      else (Returned, rejected 400 w)
  end.
Proof.
  unfold materialize, open_wb, file_write. run_monad.
  rewrite response_has_read, response_no_iter_content.
  destruct (join_resolve fp name) as [e|p]; [reflexivity|].
  destruct (is_relative_to p fp); cbn [negb]; [|reflexivity].
  destruct content; try reflexivity.
  cbn [fs call].
  destruct (startswith s "data:").
  { destruct (can_open_wb (fs w) p); [|reflexivity].
    destruct (urlopen s) as [e|body]; [reflexivity|].
    unfold set_fs, call; cbn [fs wire calls].
    rewrite lookup_insert_eq, insert_insert_eq. reflexivity. }
  destruct (startswith s "http:" || startswith s "https:").
  { destruct (can_open_wb (fs w) p); [|reflexivity].
    destruct (urlopen s) as [e|body]; reflexivity. }
  destruct (can_open_wb (fs w) p); [|reflexivity].
  destruct (b64decode s) as [e|data]; [reflexivity|].
  unfold set_fs, call; cbn [fs wire calls].
  rewrite lookup_insert_eq, insert_insert_eq. reflexivity.
Qed.


Lemma is_relative_to_prefix p fp : is_relative_to p fp = true -> fp `prefix_of` p.
Proof. unfold is_relative_to. apply bool_decide_eq_true_1. Qed.

Ltac step_calls :=
  first
    [ exists []; rewrite app_nil_r; split; [reflexivity|]; split; [constructor|]
    | eexists; split;
      [ cbn [calls call set_fs rejected send]; rewrite <- ?app_assoc; reflexivity |];
      split; [repeat constructor; assumption |] ].

Lemma materialize_spec fp entry w r w' :
  materialize urlopen fp entry w = (r, w') ->
  exists c, calls w' = (calls w ++ c)%list /\ Forall (loop_call fp) c /\
    (r = Returned -> wire w' = (wire w ++ [Send_response 400; End_headers])%list) /\
    (r <> Returned -> wire w' = wire w).
Proof.
  destruct entry as [name content]. rewrite materialize_eq.
  destruct (join_resolve fp name) as [e|p].
  { intros [= <- <-]. step_calls. split; [discriminate | reflexivity]. }
  destruct (is_relative_to p fp) eqn:Hrel; cycle 1.
  { intros [= <- <-]. step_calls. cbn. rewrite <- app_assoc. split; [reflexivity | congruence]. }
  apply is_relative_to_prefix in Hrel.
  destruct content;
    try (intros [= <- <-]; step_calls; split; [discriminate | reflexivity]).
  { intros [= <- <-]. step_calls. cbn. rewrite <- app_assoc. split; [reflexivity | congruence]. }
  cbv zeta.
  destruct (can_open_wb (fs w) p); cycle 1.
  { intros [= <- <-]. step_calls. split; [discriminate | reflexivity]. }
  destruct (startswith s "data:").
  { destruct (urlopen s); intros [= <- <-]; step_calls; split; (discriminate || reflexivity). }
  destruct (startswith s "http:" || startswith s "https:").
  { destruct (urlopen s); intros [= <- <-]; step_calls; split; (discriminate || reflexivity). }
  destruct (b64decode s); intros [= <- <-]; step_calls; split; (discriminate || reflexivity).
Qed.

Lemma for_each_cons {X} (x : X) l (body : X -> M unit) w :
  for_each (x :: l) body w =
  match body x w with
  | (Val _, w1) => for_each l body w1
  | (Returned, w1) => (Returned, w1)
  | (Raised e, w1) => (Raised e, w1)
  end.
Proof. reflexivity. Qed.

Lemma for_each_app {X} (l1 l2 : list X) (body : X -> M unit) w w1 :
  for_each l1 body w = (Val tt, w1) ->
  for_each (l1 ++ l2) body w = for_each l2 body w1.
Proof.
  revert w. induction l1 as [|x l1 IH]; intros w; cbn [app].
  - intros [= <-]. reflexivity.
  - rewrite !for_each_cons. destruct (body x w) as [[[]| |e] w2]; [apply IH | discriminate..].
Qed.

Lemma loop_spec fp l : forall w r w',
  for_each l (materialize urlopen fp) w = (r, w') ->
  exists c, calls w' = (calls w ++ c)%list /\ Forall (loop_call fp) c /\
    (r = Returned -> wire w' = (wire w ++ [Send_response 400; End_headers])%list) /\
    (r <> Returned -> wire w' = wire w).
Proof.
  induction l as [|x l IH]; intros w r w'.
  - intros [= <- <-]. exists []. rewrite app_nil_r.
    split_and!; [reflexivity | constructor | discriminate | reflexivity].
  - rewrite for_each_cons.
    destruct (materialize urlopen fp x w) as [[[]| |e] w1] eqn:Hx;
      apply materialize_spec in Hx as (c1 & Hc1 & Hf1 & Hret1 & Hoth1).
    + intros H. apply IH in H as (c2 & Hc2 & Hf2 & Hret2 & Hoth2).
      exists (c1 ++ c2)%list. rewrite Hc2, Hc1, app_assoc.
      split_and!; [reflexivity | apply Forall_app; auto | |].
      * intros Hr. rewrite Hret2, Hoth1 by (assumption || discriminate). reflexivity.
      * intros Hr. rewrite Hoth2, Hoth1 by (assumption || discriminate). reflexivity.
    + intros [= <- <-]. exists c1. split_and!; auto.
    + intros [= <- <-]. exists c1. split_and!; auto.
Qed.

(** An entry whose path leaves the directory stops the loop. *)
Lemma escape_rejected fp name content p w :
  join_resolve fp name = inr p -> is_relative_to p fp = false ->
  materialize urlopen fp (name, content) w = (Returned, rejected 400 w).
Proof. intros Hp Hrel. rewrite materialize_eq, Hp, Hrel. reflexivity. Qed.

Lemma escape_stops fp l name content p : forall w,
  (name, content) ∈ l ->
  join_resolve fp name = inr p -> is_relative_to p fp = false ->
  (for_each l (materialize urlopen fp) w).1 <> Val tt.
Proof.
  induction l as [|x l IH]; intros w Hin Hp Hrel; [inversion Hin|].
  rewrite for_each_cons. apply elem_of_cons in Hin as [<-|Hin].
  - rewrite (escape_rejected _ _ _ _ _ Hp Hrel). discriminate.
  - destruct (materialize urlopen fp x w) as [[[]| |e] w1]; [eauto | discriminate..].
Qed.

Lemma written_app l1 l2 : written (l1 ++ l2) = (written l1 ++ written l2)%list.
Proof.
  induction l1 as [|c l1 IH]; [reflexivity|].
  destruct c; cbn; rewrite ?IH; reflexivity.
Qed.

Lemma materialize_written fp entry w w' :
  materialize urlopen fp entry w = (Val tt, w') ->
  exists c file, calls w' = (calls w ++ c)%list /\ written c = [file] /\
    materialized_as urlopen fp file entry.
Proof.
  destruct entry as [name content]. rewrite materialize_eq.
  unfold materialized_as. cbn [fst snd].
  destruct (join_resolve fp name) as [e|p]; [discriminate|].
  destruct (is_relative_to p fp); [|discriminate].
  destruct content; try discriminate.
  cbv zeta. destruct (can_open_wb (fs w) p); [|discriminate].
  destruct (startswith s "data:") eqn:Hd.
  { destruct (urlopen s) as [e|body] eqn:Hu; intros [= <-].
    exists [Open_wb p; Urlopen s; Write p body], (p, body).
    cbn [calls call set_fs]. rewrite <- !app_assoc.
    split_and!; [reflexivity.. |]. exists s. rewrite Hd. auto. }
  destruct (startswith s "http:" || startswith s "https:").
  { destruct (urlopen s); discriminate. }
  destruct (b64decode s) as [e|data] eqn:Hb; intros [= <-].
  exists [Open_wb p; Write p data], (p, data).
  cbn [calls call set_fs]. rewrite <- !app_assoc.
  split_and!; [reflexivity.. |]. exists s. rewrite Hd. auto.
Qed.

Lemma loop_written fp l : forall w w',
  for_each l (materialize urlopen fp) w = (Val tt, w') ->
  exists c, calls w' = (calls w ++ c)%list /\
    Forall2 (materialized_as urlopen fp) (written c) l.
Proof.
  induction l as [|x l IH]; intros w w'.
  - intros [= <-]. exists []. rewrite app_nil_r. split; [reflexivity | constructor].
  - rewrite for_each_cons.
    destruct (materialize urlopen fp x w) as [[[]| |e] w1] eqn:Hx; [|discriminate..].
    apply materialize_written in Hx as (c1 & file & Hc1 & Hw1 & Hm).
    intros H. apply IH in H as (c2 & Hc2 & Hf2).
    exists (c1 ++ c2)%list. rewrite Hc2, Hc1, app_assoc, written_app, Hw1.
    split; [reflexivity | constructor; assumption].
Qed.

End HandlerFacts.

Lemma popens_app l1 l2 : popens (l1 ++ l2) = (popens l1 ++ popens l2)%list.
Proof. induction l1 as [|c l1 IH]; [reflexivity|]. destruct c; cbn; rewrite ?IH; reflexivity. Qed.

Lemma completions_app l1 l2 : completions (l1 ++ l2) = (completions l1 ++ completions l2)%list.
Proof. induction l1 as [|c l1 IH]; [reflexivity|]. destruct c; cbn; rewrite ?IH; reflexivity. Qed.

Lemma sandboxes_app l1 l2 : sandboxes (l1 ++ l2) = (sandboxes l1 ++ sandboxes l2)%list.
Proof. induction l1 as [|c l1 IH]; [reflexivity|]. destruct c; cbn; rewrite ?IH; reflexivity. Qed.

Lemma removals_app l1 l2 : removals (l1 ++ l2) = (removals l1 ++ removals l2)%list.
Proof. induction l1 as [|c l1 IH]; [reflexivity|]. destruct c; cbn; rewrite ?IH; reflexivity. Qed.

Lemma loop_calls_quiet root c :
  Forall (loop_call root) c ->
  popens c = [] /\ completions c = [] /\ sandboxes c = [] /\ removals c = [] /\
  Forall (writes_within root) c.
Proof.
  induction 1 as [|x c Hx _ IH]; [repeat split; constructor|].
  destruct IH as (? & ? & ? & ? & ?).
  destruct x; cbn in Hx; try contradiction; cbn; repeat split; auto.
Qed.

Lemma fsencode_args_inr l argv : fsencode_args l = inr argv -> l = map JStr argv.
Proof.
  revert argv. induction l as [|x l IH]; intros argv; cbn.
  - intros [= <-]. reflexivity.
  - destruct x; try discriminate. destruct (has_nul s); [discriminate|].
    destruct (fsencode_args l) as [e|l']; [discriminate|].
    intros [= <-]. cbn. rewrite (IH l') by reflexivity. reflexivity.
Qed.

Lemma map_JStr_inj l1 l2 : map JStr l1 = map JStr l2 -> l1 = l2.
Proof.
  revert l2. induction l1 as [|x l1 IH]; intros [|y l2]; cbn; try discriminate; [reflexivity|].
  intros [= -> H]. f_equal. auto.
Qed.

Lemma map_JStr_app l a b :
  map JStr l = (a ++ b)%list -> exists la lb, l = (la ++ lb)%list /\ a = map JStr la /\ b = map JStr lb.
Proof.
  revert l. induction a as [|x a IH]; intros l; cbn.
  - intros <-. exists [], l. auto.
  - destruct l as [|y l]; cbn; [discriminate|]. intros [= <- H].
    apply IH in H as (la & lb & -> & -> & ->). exists (y :: la), lb. auto.
Qed.

(** The argument vector of the tool. *)
Lemma pandoc_argv args (ks : list string) argv :
  fsencode_args ([JStr "pandoc"] ++ args ++ map JStr ks ++ [JStr "-o"; JStr "-"]) = inr argv ->
  exists sargs, args = map JStr sargs /\ argv = ("pandoc" :: sargs ++ ks ++ ["-o"; "-"])%list.
Proof.
  intros H. apply fsencode_args_inr in H. symmetry in H.
  apply map_JStr_app in H as (l0 & l1 & -> & H0 & H).
  symmetry in H. apply map_JStr_app in H as (sargs & l2 & -> & -> & H).
  symmetry in H. apply map_JStr_app in H as (l3 & l4 & -> & H3 & H4).
  apply map_JStr_inj in H3 as <-.
  apply (map_JStr_inj ["pandoc"]) in H0 as <-.
  apply (map_JStr_inj ["-o"; "-"]) in H4 as <-.
  exists sargs. split; reflexivity.
Qed.

Ltac trace_eq :=
  cbn [calls wire fs cleaned call send set_fs entered sandbox_ready rejected];
  rewrite <- ?app_assoc; cbn [app]; try reflexivity.

Section ConvertFacts.

Context (tmpdir : Path) (urlopen : string -> exn + bytes)
  (pandoc : list string -> Path -> gmap Path node -> exn + completed).

Local Abbreviation fp := (tmpdir ++ ["files"])%list.

Lemma convert_eq files extra args w :
  convert tmpdir urlopen pandoc files extra args w =
  match fs (entered tmpdir w) !! fp with
  | Some _ => (Raised OSError, cleaned tmpdir (call (Mkdir fp) (entered tmpdir w)))
  | None =>
      match for_each (dict_merge files extra) (materialize urlopen fp)
              (sandbox_ready tmpdir w) with
      | (Val _, w1) =>
          match fsencode_args ([JStr "pandoc"] ++ args ++ map JStr (keys files)
                                 ++ [JStr "-o"; JStr "-"]) with
          | inl e => (Raised e, cleaned tmpdir w1)
          | inr argv =>
              match pandoc argv fp (fs w1) with
              | inl e => (Raised e, cleaned tmpdir (call (Popen argv fp) w1))
              | inr done =>
                  let '(r, w2) :=
                    respond done
                      (call (Communicate (returncode done) (stdout done) (stderr done))
                         (set_fs (fs_after done) (call (Popen argv fp) w1))) in
                  (r, cleaned tmpdir w2)
              end
          end
      | (Returned, w1) => (Returned, cleaned tmpdir w1)
      | (Raised e, w1) => (Raised e, cleaned tmpdir w1)
      end
  end.
Proof.
  unfold convert, with_TemporaryDirectory, mkdir, run_pandoc. run_monad.
  fold (entered tmpdir w). cbn [fs call].
  destruct (fs (entered tmpdir w) !! fp) eqn:Hm; [reflexivity|].
  change (set_fs (<[fp:=Dir]> (fs (entered tmpdir w))) (call (Mkdir fp) (entered tmpdir w)))
    with (sandbox_ready tmpdir w).
  destruct (for_each (dict_merge files extra) (materialize urlopen fp) (sandbox_ready tmpdir w))
    as [[[]| |e] w1]; try reflexivity.
  destruct (fsencode_args _) as [e|argv]; [reflexivity|].
  cbn [fs call].
  destruct (pandoc argv fp (fs w1)) as [e|done]; [reflexivity|].
  reflexivity.
Qed.

Lemma convert_exits files extra args w r w' :
  convert tmpdir urlopen pandoc files extra args w = (r, w') ->
  convert_exit tmpdir urlopen pandoc files extra args w r w'.
Proof.
  rewrite convert_eq.
  destruct (fs (entered tmpdir w) !! fp) eqn:Hm.
  { intros [= <- <-]. apply exit_mkdir. congruence. }
  destruct (for_each (dict_merge files extra) (materialize urlopen fp) (sandbox_ready tmpdir w))
    as [[[]| |e] w1] eqn:Hloop.
  - destruct (fsencode_args _) as [e|argv] eqn:Hargs.
    { intros [= <- <-]. eapply exit_argv; eassumption. }
    destruct (pandoc argv fp (fs w1)) as [e|done] eqn:Hrun.
    { intros [= <- <-]. eapply exit_spawn; eassumption. }
    destruct (respond done _) as [r2 w2] eqn:Hresp.
    intros [= <- <-]. eapply exit_tool; eassumption.
  - intros [= <- <-]. eapply exit_loop; [eassumption.. | discriminate].
  - intros [= <- <-]. eapply exit_loop; [eassumption.. | discriminate].
Qed.

Lemma cleaned_gone w p : tmpdir `prefix_of` p -> fs (cleaned tmpdir w) !! p = None.
Proof.
  intros Hp. unfold cleaned, rmtree_fs. cbn [fs call set_fs].
  apply map_lookup_filter_None. right. intros x _ Hn. apply Hn. exact Hp.
Qed.

Lemma respond_eq done w :
  respond done w =
  if (returncode done =? 0)%Z then
    (Val tt,
     send (Wfile_write (stdout done))
       (send End_headers
          (send (Send_header "Content-Length" (str_of_nat (length (stdout done))))
             (send (Send_header "Content-Type" "application/octet-stream")
                (send (Send_response 200) w)))))
  else
    (Returned,
     send (Wfile_write (stderr done)) (send End_headers (send (Send_response 500) w))).
Proof.
  unfold respond. destruct (returncode done =? 0)%Z; reflexivity.
Qed.


Lemma respond_run done w :
  exists r w', respond done w = (r, w') /\ calls w' = calls w /\ fs w' = fs w /\
    wire w' = (wire w ++ tool_response (returncode done) (stdout done) (stderr done))%list /\
    r = (if (returncode done =? 0)%Z then Val tt else Returned).
Proof.
  rewrite respond_eq. unfold tool_response.
  destruct (returncode done =? 0)%Z; do 2 eexists;
    (split; [reflexivity|]); cbn; rewrite <- ?app_assoc; auto.
Qed.

(** Every run of lines 92-151, as the calls it makes and what it sends. *)
Lemma convert_trace files extra args w r w' :
  convert tmpdir urlopen pandoc files extra args w = (r, w') ->
  exists cl tail,
    calls w' = (calls w ++ Mkdtemp tmpdir :: Mkdir fp :: cl ++ tail ++ [Rmtree tmpdir])%list /\
    Forall (loop_call fp) cl /\
    ( (tail = [] /\
       ((r = Returned /\ wire w' = (wire w ++ [Send_response 400; End_headers])%list) \/
        (exists e, r = Raised e /\ wire w' = wire w)))
      \/
      (exists sargs w1,
         args = map JStr sargs /\
         for_each (dict_merge files extra) (materialize urlopen fp)
           (sandbox_ready tmpdir w) = (Val tt, w1) /\
         calls w1 = (calls (sandbox_ready tmpdir w) ++ cl)%list /\
         let argv := ("pandoc" :: sargs ++ keys files ++ ["-o"; "-"])%list in
         ( (exists e, pandoc argv fp (fs w1) = inl e /\
              tail = [Popen argv fp] /\ r = Raised e /\ wire w' = wire w)
           \/
           (exists done,
              pandoc argv fp (fs w1) = inr done /\
              tail = [Popen argv fp;
                      Communicate (returncode done) (stdout done) (stderr done)] /\
              wire w' = (wire w ++ tool_response (returncode done) (stdout done)
                                     (stderr done))%list /\
              r = (if (returncode done =? 0)%Z then Val tt else Returned)) ) ) ).
Proof.
  intros H. apply convert_exits in H.
  destruct H as [Hm | r w1 Hm Hloop Hr | e w1 Hm Hloop Hargs
                 | argv e w1 Hm Hloop Hargs Hrun | argv done w1 r w2 Hm Hloop Hargs Hrun Hresp].
  - exists [], []. split_and!; [trace_eq | constructor |].
    left. split; [reflexivity|]. right. eauto.
  - apply loop_spec in Hloop as (cl & Hc & Hf & Hret & Hoth).
    exists cl, []. split_and!; [|assumption|].
    + cbn [calls cleaned call set_fs]. rewrite Hc. trace_eq.
    + left. split; [reflexivity|]. cbn [wire cleaned call set_fs].
      destruct r as [[]| |e]; [congruence | left | right].
      * split; [reflexivity|]. rewrite Hret by reflexivity. reflexivity.
      * exists e. split; [reflexivity|]. rewrite Hoth by discriminate. reflexivity.
  - apply loop_spec in Hloop as (cl & Hc & Hf & Hret & Hoth).
    exists cl, []. split_and!; [|assumption|].
    + cbn [calls cleaned call set_fs]. rewrite Hc. trace_eq.
    + left. split; [reflexivity|]. right. exists e. split; [reflexivity|].
      cbn [wire cleaned call set_fs]. rewrite Hoth by discriminate. reflexivity.
  - pose proof Hloop as Hloop'.
    apply loop_spec in Hloop as (cl & Hc & Hf & Hret & Hoth).
    apply pandoc_argv in Hargs as (sargs & -> & ->).
    exists cl, [Popen ("pandoc" :: sargs ++ keys files ++ ["-o"; "-"])%list fp].
    split_and!; [|assumption|].
    + cbn [calls cleaned call set_fs]. rewrite Hc. trace_eq.
    + right. exists sargs, w1. split_and!; [reflexivity | assumption.. |]. left. exists e.
      split_and!; [assumption | reflexivity.. |].
      cbn [wire cleaned call set_fs]. rewrite Hoth by discriminate. reflexivity.
  - pose proof Hloop as Hloop'.
    apply loop_spec in Hloop as (cl & Hc & Hf & Hret & Hoth).
    apply pandoc_argv in Hargs as (sargs & -> & ->).
    destruct (respond_run done
                (call (Communicate (returncode done) (stdout done) (stderr done))
                   (set_fs (fs_after done)
                      (call (Popen ("pandoc" :: sargs ++ keys files ++ ["-o"; "-"])%list fp) w1))))
      as (r' & w2' & Heq & Hcalls & _ & Hwire & Hres).
    rewrite Hresp in Heq. injection Heq as <- <-.
    exists cl, [Popen ("pandoc" :: sargs ++ keys files ++ ["-o"; "-"])%list fp;
                Communicate (returncode done) (stdout done) (stderr done)].
    split_and!; [|assumption|].
    + cbn [calls cleaned call set_fs]. rewrite Hcalls. cbn [calls call set_fs].
      rewrite Hc. trace_eq.
    + right. exists sargs, w1. split_and!; [reflexivity | assumption.. |]. right. exists done.
      split_and!; [assumption | reflexivity | | assumption].
      cbn [wire cleaned call set_fs]. rewrite Hwire. cbn [wire call set_fs].
      rewrite Hoth by discriminate. reflexivity.
Qed.

End ConvertFacts.

(** ** What the loop and [Popen] ask of names and arguments *)

Lemma fsencode_args_clean l argv :
  fsencode_args l = inr argv -> Forall (fun s => has_nul s = false) argv.
Proof.
  revert argv. induction l as [|x l IH]; intros argv; cbn.
  - intros [= <-]. constructor.
  - destruct x; try discriminate. destruct (has_nul s) eqn:E; [discriminate|].
    destruct (fsencode_args l) as [e|l']; [discriminate|].
    intros [= <-]. constructor; [exact E | apply IH; reflexivity].
Qed.





Section LoopFacts.

Context (urlopen : string -> exn + bytes).

(** What one turn writes: one file when it goes through, none otherwise. *)
Lemma materialize_written_any fp entry w :
  exists c,
    calls (materialize urlopen fp entry w).2 = (calls w ++ c)%list /\
    ( ((materialize urlopen fp entry w).1 = Val tt /\
       exists file, written c = [file] /\ materialized_as urlopen fp file entry)
      \/
      ((materialize urlopen fp entry w).1 <> Val tt /\ written c = []) ).
Proof.
  destruct (materialize urlopen fp entry w) as [[[]| |e] w'] eqn:Hx; cbn [fst snd].
  - apply materialize_written in Hx as (c & file & Hc & Hw & Hm).
    exists c. split; [exact Hc|]. left. split; [reflexivity|]. eauto.
  - destruct entry as [name content]. rewrite materialize_eq in Hx.
    destruct (join_resolve fp name) as [e|p]; [discriminate|].
    destruct (is_relative_to p fp).
    + destruct content; try discriminate.
      * injection Hx as <-. exists []. rewrite app_nil_r.
        split; [reflexivity|]. right. split; [discriminate | reflexivity].
      * exfalso. cbv zeta in Hx. destruct (can_open_wb (fs w) p); [|discriminate].
        destruct (startswith s "data:"); [destruct (urlopen s); discriminate|].
        destruct (startswith s "http:" || startswith s "https:");
          [destruct (urlopen s); discriminate|].
        destruct (b64decode s); discriminate.
    + injection Hx as <-. exists []. rewrite app_nil_r.
      split; [reflexivity|]. right. split; [discriminate | reflexivity].
  - destruct entry as [name content]. rewrite materialize_eq in Hx.
    destruct (join_resolve fp name) as [e'|p].
    { injection Hx as <- <-. exists []. rewrite app_nil_r.
      split; [reflexivity|]. right. split; [discriminate | reflexivity]. }
    destruct (is_relative_to p fp); [|discriminate].
    destruct content;
      try (injection Hx as <- <-; exists []; rewrite app_nil_r;
           split; [reflexivity|]; right; split; [discriminate | reflexivity]);
      try discriminate.
    cbv zeta in Hx. destruct (can_open_wb (fs w) p); cycle 1.
    { injection Hx as <- <-. exists [Open_wb p].
      split; [reflexivity|]. right. split; [discriminate | reflexivity]. }
    destruct (startswith s "data:").
    { destruct (urlopen s); [|discriminate]. injection Hx as <- <-.
      exists [Open_wb p; Urlopen s]. cbn [calls call set_fs]. rewrite <- app_assoc.
      split; [reflexivity|]. right. split; [discriminate | reflexivity]. }
    destruct (startswith s "http:" || startswith s "https:").
    { destruct (urlopen s); injection Hx as <- <-;
        exists [Open_wb p; Urlopen s]; cbn [calls call set_fs]; rewrite <- app_assoc;
        (split; [reflexivity|]); right; (split; [discriminate | reflexivity]). }
    destruct (b64decode s); [|discriminate]. injection Hx as <- <-.
    exists [Open_wb p]. split; [reflexivity|]. right. split; [discriminate | reflexivity].
Qed.

(** The files written by the loop, however it ends: one for each entry it
    went through, in order, and for all of them when it completes. *)
Lemma loop_written_prefix fp l : forall w,
  exists c,
    calls (for_each l (materialize urlopen fp) w).2 = (calls w ++ c)%list /\
    Forall2 (materialized_as urlopen fp) (written c) (take (length (written c)) l) /\
    ((for_each l (materialize urlopen fp) w).1 = Val tt ->
     Forall2 (materialized_as urlopen fp) (written c) l).
Proof.
  induction l as [|x l IH]; intros w.
  - exists []. cbn. rewrite app_nil_r. split_and!; [reflexivity | constructor | constructor].
  - rewrite for_each_cons.
    destruct (materialize_written_any fp x w) as (c1 & Hc1 & Hcase).
    destruct (materialize urlopen fp x w) as [r1 w1]. cbn [fst snd] in *.
    destruct Hcase as [(-> & file & Hw1 & Hm) | (Hne & Hw1)].
    + destruct (IH w1) as (c2 & Hc2 & Hpre & Hall).
      exists (c1 ++ c2)%list. rewrite Hc2, Hc1, app_assoc, written_app, Hw1.
      split; [reflexivity|]. cbn [app length take]. split.
      * constructor; assumption.
      * intros Hval. constructor; auto.
    + exists c1. rewrite Hw1.
      destruct r1 as [[]| |e]; [contradiction|..]; cbn [fst snd];
        (split; [exact Hc1|]); (split; [constructor | discriminate]).
Qed.


End LoopFacts.

(** ** The sandboxed part: traversal, merge, invocation and response *)

Section Sandboxed.

Context (tmpdir : Path) (urlopen : string -> exn + bytes)
  (pandoc : list string -> Path -> gmap Path node -> exn + completed).

Local Abbreviation fp := (tmpdir ++ ["files"])%list.
Local Abbreviation convert' := (convert tmpdir urlopen pandoc).

Lemma trace_observers (cl tail : list syscall) :
  Forall (loop_call fp) cl ->
  let c := (Mkdtemp tmpdir :: Mkdir fp :: cl ++ tail ++ [Rmtree tmpdir])%list in
  popens c = popens tail /\ completions c = completions tail /\
  written c = (written cl ++ written tail)%list.
Proof.
  intros Hcl. apply loop_calls_quiet in Hcl as (Hp & Hc & _ & _ & _).
  cbn. rewrite !popens_app, !completions_app, !written_app, Hp, Hc. cbn.
  rewrite !app_nil_r. auto.
Qed.

(** C2: once the tool has run to completion, what the handler sends is
    exactly one of two responses: on exit status zero, status 200 with
    [Content-Type: application/octet-stream], [Content-Length] the length
    of the captured standard output, and that output as the body; on any
    other exit status, status 500 with the captured standard error as the
    body.  The tool completes at most once in a request. *)
Theorem tool_response_two_shapes files extra args w :
  exists c,
    calls (convert' files extra args w).2 = (calls w ++ c)%list /\
    forall rc out err, (rc, out, err) ∈ completions c ->
      completions c = [(rc, out, err)] /\
      (rc = 0%Z ->
       wire (convert' files extra args w).2 =
       (wire w ++ [ Send_response 200;
                    Send_header "Content-Type" "application/octet-stream";
                    Send_header "Content-Length" (str_of_nat (length out));
                    End_headers;
                    Wfile_write out ])%list) /\
      (rc <> 0%Z ->
       wire (convert' files extra args w).2 =
       (wire w ++ [ Send_response 500; End_headers; Wfile_write err ])%list).
Proof.
  destruct (convert' files extra args w) as [r w'] eqn:Hrun.
  apply convert_trace in Hrun as (cl & tail & Hcalls & Hcl & Hcase).
  eexists. split; [exact Hcalls|]. cbn [snd].
  destruct (trace_observers cl tail Hcl) as (_ & -> & _).
  destruct Hcase as [[-> _] | (sargs & w1 & _ & _ & _ & [(e & _ & -> & _) | (done & _ & -> & Hwire & _)])].
  - intros rc out err Hin. inversion Hin.
  - intros rc out err Hin. inversion Hin.
  - intros rc out err Hin. cbn in Hin. apply list_elem_of_singleton in Hin as [= -> -> ->].
    split; [reflexivity|]. rewrite Hwire. unfold tool_response.
    split; intros Hrc.
    + rewrite Hrc. reflexivity.
    + apply Z.eqb_neq in Hrc. rewrite Hrc. reflexivity.
Qed.


(** C1, as the code has it: when an entry of the merged mapping resolves
    outside the [files] directory, the tool is never started, every file
    the handler opens or writes lies below the [files] directory, and the
    request ends either rejected with status 400 or with an exception
    raised before that entry was reached; it is rejected with 400 whenever
    the sandbox is set up and all entries before it are materialized. *)
Theorem traversal_rejected files extra args name content p w :
  (name, content) ∈ dict_merge files extra ->
  join_resolve fp name = inr p ->
  is_relative_to p fp = false ->
  exists c,
    calls (convert' files extra args w).2 = (calls w ++ c)%list /\
    popens c = [] /\
    Forall (writes_within fp) c /\
    ( ((convert' files extra args w).1 = Returned /\
       wire (convert' files extra args w).2 =
       (wire w ++ [Send_response 400; End_headers])%list)
      \/
      (exists e, (convert' files extra args w).1 = Raised e /\
                 wire (convert' files extra args w).2 = wire w) ) /\
    (forall before after w1,
        dict_merge files extra = (before ++ (name, content) :: after)%list ->
        fs (entered tmpdir w) !! fp = None ->
        for_each before (materialize urlopen fp) (sandbox_ready tmpdir w) = (Val tt, w1) ->
        (convert' files extra args w).1 = Returned).
Proof.
  intros Hin Hp Hrel.
  pose proof (escape_stops urlopen fp _ _ _ _ (sandbox_ready tmpdir w) Hin Hp Hrel) as Hstop.
  destruct (convert' files extra args w) as [r w'] eqn:Hrun. cbn [fst snd].
  pose proof Hrun as Heq. rewrite convert_eq in Heq.
  apply convert_trace in Hrun as (cl & tail & Hcalls & Hcl & Hcase).
  eexists. split; [exact Hcalls|].
  destruct (trace_observers cl tail Hcl) as (-> & _ & _).
  destruct Hcase as [[-> Hout] | (sargs & w1 & _ & Hloop & _)];
    [|rewrite Hloop in Hstop; contradiction].
  split; [reflexivity|]. split.
  { apply loop_calls_quiet in Hcl as (_ & _ & _ & _ & Hcl).
    repeat constructor. apply Forall_app. split; [assumption | repeat constructor]. }
  split; [exact Hout|].
  intros before after w1 Hsplit Hm Hbefore.
  rewrite Hm, Hsplit in Heq.
  rewrite (for_each_app _ _ _ _ _ Hbefore), for_each_cons in Heq.
  rewrite (escape_rejected urlopen _ _ _ _ _ Hp Hrel) in Heq.
  injection Heq as <- _. reflexivity.
Qed.

(** C6, as the code has it: the loop runs over the merged mapping, whose
    keys are the keys of [files] and of [extra_files], each once, with the
    value of [extra_files] where a key is in both.  However the loop ends,
    the files it has written are, in order, those of the entries it went
    through, one each, at the resolved place and with the bytes of the
    entry's descriptor; when it completes, that is one file for every
    entry of the merged mapping.  When the tool is started all of them
    have been written, and the positional inputs of the tool are the keys
    of [files] alone. *)
Theorem merged_mapping_materialized (fm em : list (string * json)) args w :
  let files := py_dict fm in
  let extra := py_dict em in
  let merged := dict_merge files extra in
  NoDup (keys merged) /\
  (forall k, k ∈ keys merged <-> k ∈ keys files \/ k ∈ keys extra) /\
  (forall k, dict_get merged k =
             match dict_get extra k with
             | Some v => Some v
             | None => dict_get files k
             end) /\
  (forall w0,
     exists c,
       calls (for_each merged (materialize urlopen fp) w0).2 = (calls w0 ++ c)%list /\
       Forall2 (materialized_as urlopen fp) (written c)
         (take (length (written c)) merged) /\
       ((for_each merged (materialize urlopen fp) w0).1 = Val tt ->
        Forall2 (materialized_as urlopen fp) (written c) merged)) /\
  exists c,
    calls (convert' files extra args w).2 = (calls w ++ c)%list /\
    ( popens c = []
      \/
      (Forall2 (materialized_as urlopen fp) (written c) merged /\
       exists sargs,
         args = map JStr sargs /\
         popens c = [(("pandoc" :: sargs ++ keys files ++ ["-o"; "-"])%list, fp)]) ).
Proof.
  intros files extra merged.
  assert (Hmerged : merged = dict_update files extra).
  { apply dict_merge_eq, NoDup_py_dict. }
  split_and!.
  - rewrite Hmerged. apply NoDup_dict_update, NoDup_py_dict.
  - intros k. rewrite Hmerged. apply elem_of_keys_dict_update.
  - intros k. rewrite Hmerged. apply dict_get_update, NoDup_py_dict.
  - intros w0. apply loop_written_prefix.
  - destruct (convert' files extra args w) as [r w'] eqn:Hrun.
    apply convert_trace in Hrun as (cl & tail & Hcalls & Hcl & Hcase).
    eexists. split; [exact Hcalls|].
    destruct (trace_observers cl tail Hcl) as (-> & _ & ->).
    destruct Hcase as [[-> _] | (sargs & w1 & -> & Hloop & Hw1 & Htail)]; [left; reflexivity|].
    right. apply loop_written in Hloop as (c' & Hc' & Hall).
    rewrite Hw1 in Hc'. apply app_inv_head in Hc' as ->.
    cbv zeta in Htail.
    destruct Htail as [(e & _ & -> & _) | (done & _ & -> & _)]; cbn;
      rewrite app_nil_r; (split; [exact Hall | exists sargs; split; reflexivity]).
Qed.

End Sandboxed.

(** ** One turn of the loop: descriptors *)

Section Descriptors.

Context (urlopen : string -> exn + bytes).

Lemma prefix_cons a p c s :
  String.prefix (String a p) (String c s) = if ascii_dec a c then String.prefix p s else false.
Proof. reflexivity. Qed.

Lemma http_not_data s :
  (startswith s "http:" || startswith s "https:") = true -> startswith s "data:" = false.
Proof.
  unfold startswith. intros H. destruct s as [|c s]; [discriminate H|].
  rewrite !prefix_cons in *.
  destruct (ascii_dec "h" c) as [<-|]; [|discriminate H].
  destruct (ascii_dec "d" "h") as [E|]; [discriminate E | reflexivity].
Qed.

(** C9: for every byte string [b] and an entry whose descriptor is the
    base64 encoding of [b]: whenever the turn of the loop goes through, it
    has opened the file and written exactly [b], which is then the content
    of the file; it does go through when the path stays in the directory
    and can be opened; and when it raises, the exception is never the
    decoder's: it is that of the name ([ValueError]) or of the open
    ([OSError]). *)
Theorem base64_round_trip (b : bytes) fp name w :
  (forall w',
     materialize urlopen fp (name, JStr (Base64.b64encode b)) w = (Val tt, w') ->
     exists p,
       join_resolve fp name = inr p /\
       w' = World (<[p := File b]> (fs w)) (wire w) (calls w ++ [Open_wb p; Write p b])) /\
  (forall p,
     join_resolve fp name = inr p ->
     is_relative_to p fp = true ->
     can_open_wb (fs w) p = true ->
     materialize urlopen fp (name, JStr (Base64.b64encode b)) w =
     (Val tt, World (<[p := File b]> (fs w)) (wire w) (calls w ++ [Open_wb p; Write p b]))) /\
  (forall e,
     (materialize urlopen fp (name, JStr (Base64.b64encode b)) w).1 = Raised e ->
     e = ValueError \/ e = OSError).
Proof.
  rewrite materialize_eq. cbv zeta.
  rewrite !b64encode_no_colon by (cbn; tauto). cbn [orb].
  rewrite b64decode_b64encode.
  destruct (join_resolve fp name) as [e|p] eqn:Hp.
  { split_and!; [discriminate | discriminate |].
    intros e' [= <-]. left.
    unfold join_resolve in Hp. destruct (has_nul name); [|discriminate].
    injection Hp as <-. reflexivity. }
  destruct (is_relative_to p fp) eqn:Hrel.
  2:{ split_and!; [discriminate | intros ? [= <-]; congruence | discriminate]. }
  destruct (can_open_wb (fs w) p) eqn:Hopen.
  - assert (Heq : set_fs (<[p:=File b]> (fs w))
                    (call (Write p b) (set_fs (<[p:=File []]> (fs w)) (call (Open_wb p) w)))
                  = World (<[p := File b]> (fs w)) (wire w) (calls w ++ [Open_wb p; Write p b])).
    { unfold set_fs, call. cbn [fs wire calls]. rewrite <- app_assoc. reflexivity. }
    rewrite Heq. split_and!.
    + intros w' [= <-]. exists p. split; reflexivity.
    + intros p' [= <-] _ _. reflexivity.
    + discriminate.
  - split_and!; [discriminate | intros ? [= <-]; congruence |].
    intros e [= <-]. right. reflexivity.
Qed.

(** C7, as the code has it: an entry whose descriptor begins with [http:]
    or [https:] is never written: the file is created empty, the resource
    is asked for, and the turn ends with an exception, [AttributeError]
    when the resource was obtained. *)
Theorem remote_descriptor_not_written fp name s p w :
  (startswith s "http:" || startswith s "https:") = true ->
  join_resolve fp name = inr p ->
  is_relative_to p fp = true ->
  can_open_wb (fs w) p = true ->
  exists e,
    materialize urlopen fp (name, JStr s) w =
    (Raised e, World (<[p := File []]> (fs w)) (wire w) (calls w ++ [Open_wb p; Urlopen s])) /\
    (forall body, urlopen s = inr body -> e = AttributeError).
Proof.
  intros Hs Hp Hrel Hopen. rewrite materialize_eq, Hp, Hrel, Hopen. cbv zeta.
  rewrite (http_not_data s Hs), Hs.
  unfold set_fs, call. cbn [fs wire calls]. rewrite <- app_assoc. cbn [app].
  destruct (urlopen s) as [e|body]; eexists; (split; [reflexivity|]).
  - discriminate.
  - reflexivity.
Qed.

(** C10: for an entry whose path stays in the directory, the turn sends
    the 400 rejection exactly when the descriptor is null; a descriptor
    that is neither null nor a string sends nothing and raises
    [AttributeError] at the first prefix test. *)
Theorem null_content_only_rejection fp name content p w :
  join_resolve fp name = inr p ->
  is_relative_to p fp = true ->
  (materialize urlopen fp (name, content) w = (Returned, rejected 400 w) <-> content = JNull) /\
  (content <> JNull ->
   (materialize urlopen fp (name, content) w).1 <> Returned /\
   wire (materialize urlopen fp (name, content) w).2 = wire w) /\
  (content <> JNull -> (forall s, content <> JStr s) ->
   materialize urlopen fp (name, content) w = (Raised AttributeError, w)).
Proof.
  intros Hp Hrel. rewrite materialize_eq, Hp, Hrel.
  destruct content; try (split_and!; [split; [discriminate | discriminate] | intros _; split; [discriminate | reflexivity] | reflexivity]).
  - split_and!; [split; reflexivity | congruence | congruence].
  - cbv zeta. split_and!.
    + split; [|discriminate].
      destruct (can_open_wb (fs w) p); [|discriminate].
      destruct (startswith s "data:"); [destruct (urlopen s); discriminate|].
      destruct (startswith s "http:" || startswith s "https:"); [destruct (urlopen s); discriminate|].
      destruct (b64decode s); discriminate.
    + intros _.
      destruct (can_open_wb (fs w) p); [|split; [discriminate | reflexivity]].
      destruct (startswith s "data:");
        [destruct (urlopen s); (split; [discriminate | reflexivity])|].
      destruct (startswith s "http:" || startswith s "https:");
        [destruct (urlopen s); (split; [discriminate | reflexivity])|].
      destruct (b64decode s); (split; [discriminate | reflexivity]).
    + intros _ Hs. exfalso. eapply Hs. reflexivity.
Qed.

End Descriptors.

(** ** The payload checks *)

Ltac dict_norm :=
  repeat first
    [ rewrite py_dict_idemp
    | rewrite (py_dict_id (dict_del _ _))
        by (repeat apply NoDup_dict_del; apply NoDup_py_dict)
    | rewrite dict_get_del_ne by discriminate ].

Lemma validate_eq members w :
  validate (JObj members) w =
  let d := py_dict members in
  match dict_get d "files" with
  | Some (JObj f) =>
      match dict_get d "extra_files" with
      | Some (JObj e) =>
          match dict_get d "args" with
          | Some (JArr a) => (Val (py_dict f, py_dict e, a), w)
          | _ => (Returned, rejected 400 w)
          end
      | None =>
          match dict_get d "args" with
          | Some (JArr a) => (Val (py_dict f, [], a), w)
          | _ => (Returned, rejected 400 w)
          end
      | Some _ => (Returned, rejected 400 w)
      end
  | _ => (Returned, rejected 400 w)
  end.
Proof.
  cbv zeta. unfold validate, py_in, py_pop, py_pop_default. run_monad.
  destruct (dict_get (py_dict members) "files") as [files|] eqn:Hf; cycle 1.
  { rewrite bool_decide_eq_false_2 by (intros [? [=]]). reflexivity. }
  rewrite bool_decide_eq_true_2 by eauto. cbn [negb].
  destruct files; try reflexivity.
  dict_norm.
  destruct (dict_get (py_dict members) "extra_files") as [extra|] eqn:He.
  - destruct extra; try reflexivity. dict_norm.
    destruct (dict_get (py_dict members) "args") as [args|] eqn:Ha; cycle 1.
    { rewrite bool_decide_eq_false_2 by (intros [? [=]]). reflexivity. }
    rewrite bool_decide_eq_true_2 by eauto. cbn [negb].
    destruct args; reflexivity.
  - dict_norm.
    destruct (dict_get (py_dict members) "args") as [args|] eqn:Ha; cycle 1.
    { rewrite bool_decide_eq_false_2 by (intros [? [=]]). reflexivity. }
    rewrite bool_decide_eq_true_2 by eauto. cbn [negb].
    destruct args; reflexivity.
Qed.

Lemma validate_cases payload w :
  (exists x, validate payload w = (Val x, w)) \/
  validate payload w = (Returned, rejected 400 w) \/
  (exists e, validate payload w = (Raised e, w)).
Proof.
  destruct payload as [| | | | s | items | members];
    try (right; right; exists TypeError; reflexivity).
  - unfold validate, py_in, py_pop. run_monad.
    destruct (str_contains "files" s); cbn [negb].
    + right; right. eexists. reflexivity.
    + right; left. reflexivity.
  - unfold validate, py_in, py_pop. run_monad.
    destruct (existsb (is_str "files") items); cbn [negb].
    + right; right. eexists. reflexivity.
    + right; left. reflexivity.
  - rewrite validate_eq. cbv zeta.
    repeat match goal with
           | |- context [match ?x with _ => _ end] => destruct x
           end; eauto.
Qed.

(** C4, as the code has it: a payload that is a JSON object is rejected
    with status 400 exactly when [files] is absent or not an object, or
    [extra_files] is present and not an object, or [args] is absent or not
    an array; otherwise nothing is sent and the handler goes on to lines
    92-151 with the three values, an absent [extra_files] being empty. *)
Theorem payload_validation members w :
  let payload := JObj members in
  let rejects :=
    match member payload "files" with Some (JObj _) => false | _ => true end
    || match member payload "extra_files" with Some (JObj _) | None => false | _ => true end
    || match member payload "args" with Some (JArr _) => false | _ => true end in
  (rejects = true -> validate payload w = (Returned, rejected 400 w)) /\
  (rejects = false ->
   exists f e a,
     member payload "files" = Some (JObj f) /\
     (member payload "extra_files" = Some (JObj e) \/
      (member payload "extra_files" = None /\ e = [])) /\
     member payload "args" = Some (JArr a) /\
     validate payload w = (Val (py_dict f, py_dict e, a), w)).
Proof.
  cbv zeta. unfold member. rewrite validate_eq. cbv zeta.
  destruct (dict_get (py_dict members) "files") as [[]|];
    try (split; [reflexivity | discriminate]).
  destruct (dict_get (py_dict members) "extra_files") as [[]|];
    try (split; [reflexivity | discriminate]);
    destruct (dict_get (py_dict members) "args") as [[]|];
    try (split; [reflexivity | discriminate]).
  - split; [discriminate|]. intros _. do 3 eexists. split_and!; [reflexivity | left; reflexivity | reflexivity..].
  - split; [discriminate|]. intros _. exists members0, [], items.
    split_and!; [reflexivity | right; split; reflexivity | reflexivity..].
Qed.

(** ** The authorization gate and the whole handler *)

Section WholeHandler.

Context (int : string -> option Z) (loads : bytes -> parsed)
  (tmpdir : Path) (urlopen : string -> exn + bytes)
  (pandoc : list string -> Path -> gmap Path node -> exn + completed).

Local Abbreviation fp := (tmpdir ++ ["files"])%list.
Local Abbreviation do_POST' token := (do_POST token int loads tmpdir urlopen pandoc).

Lemma headers_contains_get name hs :
  headers_contains name hs = bool_decide (is_Some (headers_get name hs)).
Proof.
  induction hs as [|[k v] hs IH]; [reflexivity|]. cbn.
  destruct (String.eqb (lower k) (lower name)); cbn; [reflexivity | exact IH].
Qed.

Lemma headers_get_without name name' hs :
  lower name <> lower name' ->
  headers_get name (without_header name' hs) = headers_get name hs.
Proof.
  intros Hne. induction hs as [|[k v] hs IH]; cbn; [reflexivity|].
  destruct (String.eqb_spec (lower k) (lower name')) as [Hk|Hk]; cbn.
  - destruct (String.eqb_spec (lower k) (lower name)) as [Hk'|_]; [congruence | exact IH].
  - destruct (String.eqb (lower k) (lower name)); [reflexivity | exact IH].
Qed.

(** C3: on the endpoint's path, with a token configured, a request with
    no [Authorization] header is answered 401, one whose header is not
    [Bearer] followed by the token is answered 403, and one whose header is
    exactly that is handled as by a server without a token; a server
    without a token never looks at the header: it handles the request as
    if the header lines were not there. *)
Theorem authorization_gate self w :
  path self = "/" ->
  (forall t,
     (headers_contains "Authorization" (headers self) = false ->
      do_POST' (Some t) self w = (Returned, rejected 401 w)) /\
     (forall v, headers_get "Authorization" (headers self) = Some v ->
                v <> "Bearer " +:+ t ->
                do_POST' (Some t) self w = (Returned, rejected 403 w)) /\
     (headers_get "Authorization" (headers self) = Some ("Bearer " +:+ t) ->
      do_POST' (Some t) self w = do_POST' None self w)) /\
  check_authorization None (headers self) w = (Val tt, w) /\
  do_POST' None self w =
  do_POST' None
    (Request (path self) (without_header "Authorization" (headers self)) (rfile self)) w.
Proof.
  intros Hpath. split_and!.
  - intros t. split_and!.
    + intros Hno. unfold do_POST, check_authorization. rewrite Hpath, Hno. reflexivity.
    + intros v Hv Hne. unfold do_POST, check_authorization.
      rewrite Hpath, headers_contains_get, Hv.
      rewrite (bool_decide_eq_true_2 (is_Some (Some v))) by eauto.
      rewrite (bool_decide_eq_false_2 (Some v = Some ("Bearer " +:+ t)))
        by (intros [= E]; exact (Hne E)).
      reflexivity.
    + intros Hv. unfold do_POST, check_authorization.
      rewrite Hpath, headers_contains_get, Hv.
      rewrite (bool_decide_eq_true_2 (is_Some (Some ("Bearer " +:+ t)))) by eauto.
      rewrite (bool_decide_eq_true_2 (Some ("Bearer " +:+ t) = Some ("Bearer " +:+ t)))
        by reflexivity.
      reflexivity.
  - reflexivity.
  - unfold do_POST, check_authorization. cbn [path headers rfile].
    rewrite !headers_get_without by discriminate. reflexivity.
Qed.

Lemma seq_early (g m : M unit) w (Q : flow unit * world -> Prop) :
  g w = (Val tt, w) \/ early w (g w) ->
  early w (m w) \/ Q (m w) ->
  early w (bind g (fun _ => m) w) \/ Q (bind g (fun _ => m) w).
Proof.
  intros [Hg|Hg] Hm; unfold bind.
  - rewrite Hg. exact Hm.
  - left. unfold early in *. destruct (g w) as [[[]| |e] w1]; cbn in *; tauto.
Qed.

Lemma check_authorization_cases token hs w :
  check_authorization token hs w = (Val tt, w) \/ early w (check_authorization token hs w).
Proof.
  unfold check_authorization, early. destruct token as [t|]; [|left; reflexivity].
  destruct (negb (headers_contains "Authorization" hs));
    [right; cbn; split_and!; [discriminate | reflexivity..]|].
  destruct (negb (bool_decide _));
    [right; cbn; split_and!; [discriminate | reflexivity..] | left; reflexivity].
Qed.

(** A request either ends before line 92 or runs lines 92-151. *)
Lemma do_POST_cases token self w :
  early w (do_POST' token self w)
  \/
  (exists files extra args,
     do_POST' token self w = convert tmpdir urlopen pandoc files extra args w).
Proof.
  unfold do_POST.
  destruct (negb (path self =? "/")%string);
    [left; unfold early; cbn; split_and!; [discriminate | reflexivity..]|].
  apply (seq_early _ _ _
           (fun x => exists files extra args,
                       x = convert tmpdir urlopen pandoc files extra args w));
    [apply check_authorization_cases|].
  destruct (negb (bool_decide (headers_get "Content-Type" (headers self) = Some "application/json")));
    [left; unfold early; cbn; split_and!; [discriminate | reflexivity..]|].
  unfold handle_payload. run_monad.
  destruct (headers_get "Content-Length" (headers self)) as [s|];
    [|left; unfold early; cbn; split_and!; [discriminate | reflexivity..]].
  destruct (int s) as [n|];
    [|left; unfold early; cbn; split_and!; [discriminate | reflexivity..]].
  destruct (rfile self n) as [e|content];
    [left; unfold early; cbn; split_and!; [discriminate | reflexivity..]|].
  destruct (loads content) as [payload| |];
    [|left; unfold early; cbn; split_and!; [discriminate | reflexivity..]..].
  destruct (validate_cases payload w) as [[[[files extra] args] Hv] | [Hv | [e Hv]]];
    rewrite Hv.
  - right. exists files, extra, args. reflexivity.
  - left. unfold early. cbn. split_and!; [discriminate | reflexivity..].
  - left. unfold early. cbn. split_and!; [discriminate | reflexivity..].
Qed.

(** C8, as the code has it: lines 92-151 make exactly one sandbox
    directory, keep every file they open or write below its [files]
    subdirectory, and remove the tree as their last act however they end,
    so that nothing is left at or below the sandbox; a request either runs
    those lines or ends before them without a call to the system and with
    the file system as it found it. *)
Theorem sandbox_lifetime :
  (forall files extra args w,
     exists mid,
       calls (convert tmpdir urlopen pandoc files extra args w).2 =
       (calls w ++ Mkdtemp tmpdir :: mid ++ [Rmtree tmpdir])%list /\
       sandboxes mid = [] /\ removals mid = [] /\
       Forall (writes_within fp) mid /\
       forall p, tmpdir `prefix_of` p ->
                 fs (convert tmpdir urlopen pandoc files extra args w).2 !! p = None) /\
  (forall token self w,
     ((do_POST' token self w).1 <> Val tt /\
      calls (do_POST' token self w).2 = calls w /\
      fs (do_POST' token self w).2 = fs w)
     \/
     (exists files extra args,
        do_POST' token self w = convert tmpdir urlopen pandoc files extra args w)).
Proof.
  split; [|apply do_POST_cases].
  intros files extra args w.
  destruct (convert tmpdir urlopen pandoc files extra args w) as [r w'] eqn:Hrun.
  pose proof (convert_exits _ _ _ _ _ _ _ _ _ Hrun) as Hexit.
  apply convert_trace in Hrun as (cl & tail & Hcalls & Hcl & Hcase).
  exists (Mkdir fp :: cl ++ tail)%list. cbn [snd]. split_and!.
  - rewrite Hcalls. cbn. rewrite <- !app_assoc. reflexivity.
  - apply loop_calls_quiet in Hcl as (_ & _ & Hs & _ & _).
    cbn. rewrite sandboxes_app, Hs.
    destruct Hcase as [[-> _] | (? & ? & _ & _ & _ & [(? & _ & -> & _) | (? & _ & -> & _)])];
      reflexivity.
  - apply loop_calls_quiet in Hcl as (_ & _ & _ & Hr & _).
    cbn. rewrite removals_app, Hr.
    destruct Hcase as [[-> _] | (? & ? & _ & _ & _ & [(? & _ & -> & _) | (? & _ & -> & _)])];
      reflexivity.
  - apply loop_calls_quiet in Hcl as (_ & _ & _ & _ & Hw).
    constructor; [exact I|]. apply Forall_app. split; [exact Hw|].
    destruct Hcase as [[-> _] | (? & ? & _ & _ & _ & [(? & _ & -> & _) | (? & _ & -> & _)])];
      repeat constructor.
  - intros p Hp. destruct Hexit; apply cleaned_gone; exact Hp.
Qed.

End WholeHandler.

(** ** The handler at concrete requests *)

Module Runs.
Import Demo.

Local Abbreviation convert' := (convert tmpdir urlopen pandoc).

(** The scenario of the specification: [a.md] holds [# Title]. *)
Example title_request :
  run None
    (JObj [("files", JObj [("a.md", JStr "IyBUaXRsZQ==")]);
           ("args", JArr [JStr "-f"; JStr "markdown"; JStr "-t"; JStr "plain"])])
    json_request
  = (Val tt,
     World ∅
       [ Send_response 200;
         Send_header "Content-Type" "application/octet-stream";
         Send_header "Content-Length" "7";
         End_headers;
         Wfile_write title ]
       [ Mkdtemp tmpdir; Mkdir files_path;
         Open_wb (files_path ++ ["a.md"]); Write (files_path ++ ["a.md"]) title;
         Popen ["pandoc"; "-f"; "markdown"; "-t"; "plain"; "a.md"; "-o"; "-"] files_path;
         Communicate 0 title [];
         Rmtree tmpdir ]).
Proof. vm_compute. reflexivity. Qed.

(** [extra_files] wins on a shared key and adds its own; only the keys of
    [files] reach the tool. *)
Example override_request :
  calls
    (run None
       (JObj [("files", JObj [("a.md", JStr "AAAA")]);
              ("extra_files", JObj [("c.css", JStr "QQ=="); ("a.md", JStr "IyBUaXRsZQ==")]);
              ("args", JArr [])])
       json_request).2
  = [ Mkdtemp tmpdir; Mkdir files_path;
      Open_wb (files_path ++ ["a.md"]); Write (files_path ++ ["a.md"]) title;
      Open_wb (files_path ++ ["c.css"]); Write (files_path ++ ["c.css"]) [x41];
      Popen ["pandoc"; "a.md"; "-o"; "-"] files_path;
      Communicate 0 title [];
      Rmtree tmpdir ].
Proof. vm_compute. reflexivity. Qed.

(** A failing tool: with no input file the demonstration tool exits 1. *)
Example tool_failure_request :
  run None (JObj [("files", JObj []); ("args", JArr [])]) json_request
  = (Returned,
     World ∅
       [Send_response 500; End_headers; Wfile_write [x3f]]
       [ Mkdtemp tmpdir; Mkdir files_path;
         Popen ["pandoc"; "-o"; "-"] files_path; Communicate 1 [] [x3f];
         Rmtree tmpdir ]).
Proof. vm_compute. reflexivity. Qed.

(** C1, the claim as stated fails: the second entry of the merged mapping
    resolves outside the [files] directory, yet the request is not answered
    with 400, nor answered at all, because decoding the first entry raises. *)
Lemma traversal_behind_fault :
  let files := py_dict [("a.md", JStr "A"); ("../x", JStr "")] in
  In ("../x", JStr "") (dict_merge files []) /\
  join_resolve files_path "../x" = inr (tmpdir ++ ["x"])%list /\
  is_relative_to (tmpdir ++ ["x"])%list files_path = false /\
  run None
    (JObj [("files", JObj [("a.md", JStr "A"); ("../x", JStr "")]); ("args", JArr [])])
    json_request
  = (Raised BinasciiError,
     World ∅ []
       [ Mkdtemp tmpdir; Mkdir files_path; Open_wb (files_path ++ ["a.md"]);
         Rmtree tmpdir ]).
Proof. vm_compute. split_and!; [right; left; reflexivity | reflexivity..]. Qed.

Lemma traversal_rejected_witness :
  (("../x", JStr "") ∈ dict_merge [("a.md", JStr "QQ=="); ("../x", JStr "")] [] /\
   join_resolve files_path "../x" = inr (tmpdir ++ ["x"])%list /\
   is_relative_to (tmpdir ++ ["x"])%list files_path = false) /\
  (convert' [("a.md", JStr "QQ=="); ("../x", JStr "")] [] [] world0).1 = Returned.
Proof.
  assert (H1 : ("../x", JStr "") ∈ dict_merge [("a.md", JStr "QQ=="); ("../x", JStr "")] []).
  { apply list_elem_of_In. vm_compute. right; left; reflexivity. }
  assert (H2 : join_resolve files_path "../x" = inr (tmpdir ++ ["x"])%list) by reflexivity.
  assert (H3 : is_relative_to (tmpdir ++ ["x"])%list files_path = false) by reflexivity.
  split; [auto|].
  destruct (traversal_rejected tmpdir urlopen pandoc _ [] [] _ _ _ world0 H1 H2 H3)
    as (c & _ & _ & _ & _ & H).
  apply (H [("a.md", JStr "QQ==")] []
           (World (<[(files_path ++ ["a.md"])%list := File [x41]]>
                     (fs (sandbox_ready tmpdir world0)))
              []
              [Mkdtemp tmpdir; Mkdir files_path; Open_wb (files_path ++ ["a.md"]);
               Write (files_path ++ ["a.md"]) [x41]])).
  - reflexivity.
  - reflexivity.
  - vm_compute. reflexivity.
Defined.

Lemma tool_response_two_shapes_witness :
  wire (convert' [("a.md", JStr "IyBUaXRsZQ==")] [] [] world0).2
  = [ Send_response 200;
      Send_header "Content-Type" "application/octet-stream";
      Send_header "Content-Length" "7";
      End_headers;
      Wfile_write title ].
Proof.
  destruct (tool_response_two_shapes tmpdir urlopen pandoc
              [("a.md", JStr "IyBUaXRsZQ==")] [] [] world0) as (c & Hc & H).
  vm_compute in Hc. subst c.
  destruct (H 0%Z title []) as (_ & H200 & _); [vm_compute; left|].
  exact (H200 eq_refl).
Defined.


Lemma authorization_gate_witness :
  path json_request = "/" /\
  run (Some "s3cr3t") JNull json_request = (Returned, rejected 401 world0) /\
  run (Some "s3cr3t") JNull
    (Request "/" [("authorization", "Bearer  s3cr3t")] (reader []))
  = (Returned, rejected 403 world0) /\
  run (Some "s3cr3t") JNull
    (Request "/" [("authorization", "Bearer s3cr3t"); ("Content-Type", "text/plain")] (reader []))
  = run None JNull
      (Request "/" [("authorization", "Bearer s3cr3t"); ("Content-Type", "text/plain")] (reader [])).
Proof.
  split; [reflexivity|]. unfold run. split_and!.
  - destruct (authorization_gate int (fun _ => Parsed JNull) tmpdir urlopen pandoc
                json_request world0 eq_refl) as (H & _).
    destruct (H "s3cr3t") as (H401 & _). apply H401. reflexivity.
  - destruct (authorization_gate int (fun _ => Parsed JNull) tmpdir urlopen pandoc
                (Request "/" [("authorization", "Bearer  s3cr3t")] (reader [])) world0 eq_refl)
      as (H & _).
    destruct (H "s3cr3t") as (_ & H403 & _).
    apply (H403 "Bearer  s3cr3t"); [reflexivity | discriminate].
  - destruct (authorization_gate int (fun _ => Parsed JNull) tmpdir urlopen pandoc
                (Request "/" [("authorization", "Bearer s3cr3t"); ("Content-Type", "text/plain")] (reader []))
                world0 eq_refl) as (H & _).
    destruct (H "s3cr3t") as (_ & _ & Hok). apply Hok. reflexivity.
Defined.

(** C4, the claim as stated fails: [args] holds a number, so it is not a
    sequence of strings, yet the payload passes the checks, nothing is sent,
    and the handler goes on to make the sandbox. *)
Lemma number_in_args_not_rejected :
  let payload := JObj [("files", JObj []); ("args", JArr [JInt 1])] in
  spec_rejects payload = true /\
  validate payload world0 = (Val ([], [], [JInt 1]), world0) /\
  run None payload json_request
  = (Raised TypeError, World ∅ [] [Mkdtemp tmpdir; Mkdir files_path; Rmtree tmpdir]).
Proof. vm_compute. split_and!; reflexivity. Qed.

Lemma payload_validation_witness :
  validate (JObj [("files", JObj [("a.md", JStr "QQ==")]); ("args", JArr [JStr "-s"])]) world0
  = (Val ([("a.md", JStr "QQ==")], [], [JStr "-s"]), world0) /\
  validate (JObj [("files", JObj []); ("extra_files", JArr []); ("args", JArr [])]) world0
  = (Returned, rejected 400 world0).
Proof.
  split.
  - destruct (payload_validation
                [("files", JObj [("a.md", JStr "QQ==")]); ("args", JArr [JStr "-s"])] world0)
      as (_ & H).
    destruct (H eq_refl) as (f & e & a & Hf & He & Ha & Hv).
    injection Hf as <-. injection Ha as <-.
    destruct He as [He | [_ ->]]; [discriminate He|]. exact Hv.
  - destruct (payload_validation
                [("files", JObj []); ("extra_files", JArr []); ("args", JArr [])] world0)
      as (H & _).
    exact (H eq_refl).
Defined.

(** C7 at a request: the resource is there (every URL answers [hi]), the
    file is opened and the resource asked for, and the handler ends with
    [AttributeError], having written and answered nothing. *)
Lemma remote_fetch_raises :
  run None (JObj [("files", JObj [("a.md", JStr "http://example.com/a.md")]); ("args", JArr [])])
    json_request
  = (Raised AttributeError,
     World ∅ []
       [ Mkdtemp tmpdir; Mkdir files_path; Open_wb (files_path ++ ["a.md"]);
         Urlopen "http://example.com/a.md"; Rmtree tmpdir ]).
Proof. vm_compute. reflexivity. Qed.

Lemma remote_descriptor_not_written_witness :
  ((startswith "https://example.com/a.md" "http:"
    || startswith "https://example.com/a.md" "https:") = true /\
   join_resolve files_path "a.md" = inr (files_path ++ ["a.md"])%list /\
   is_relative_to (files_path ++ ["a.md"])%list files_path = true /\
   can_open_wb (fs (sandbox_ready tmpdir world0)) (files_path ++ ["a.md"])%list = true) /\
  (materialize urlopen files_path ("a.md", JStr "https://example.com/a.md")
     (sandbox_ready tmpdir world0)).1 = Raised AttributeError.
Proof.
  split; [split_and!; reflexivity|].
  destruct (remote_descriptor_not_written urlopen files_path "a.md" "https://example.com/a.md"
              (files_path ++ ["a.md"])%list (sandbox_ready tmpdir world0)
              eq_refl eq_refl eq_refl eq_refl) as (e & Hrun & He).
  rewrite Hrun. cbn [fst]. f_equal. exact (He _ eq_refl).
Defined.

(** C8, the claim as stated fails: a request with another content type is
    answered 400 at line 44 and makes no sandbox at all. *)
Lemma no_sandbox_for_text_plain :
  run None (JObj [("files", JObj []); ("args", JArr [])])
    (Request "/" [("Content-Type", "text/plain")] (reader []))
  = (Returned, World ∅ [Send_response 400; End_headers] []) /\
  sandboxes
    (calls (run None (JObj [("files", JObj []); ("args", JArr [])])
              (Request "/" [("Content-Type", "text/plain")] (reader []))).2) = [].
Proof. vm_compute. split; reflexivity. Qed.

Lemma base64_round_trip_witness :
  (join_resolve files_path "a.md" = inr (files_path ++ ["a.md"])%list /\
   is_relative_to (files_path ++ ["a.md"])%list files_path = true /\
   can_open_wb (fs (sandbox_ready tmpdir world0)) (files_path ++ ["a.md"])%list = true) /\
  fs (materialize urlopen files_path ("a.md", JStr "IyBUaXRsZQ==")
        (sandbox_ready tmpdir world0)).2 !! (files_path ++ ["a.md"])%list
  = Some (File title).
Proof.
  split; [split_and!; reflexivity|].
  change "IyBUaXRsZQ==" with (Base64.b64encode title).
  destruct (base64_round_trip urlopen title files_path "a.md" (sandbox_ready tmpdir world0))
    as (_ & H & _).
  rewrite (H (files_path ++ ["a.md"])%list eq_refl eq_refl eq_refl).
  cbn [snd fs]. apply lookup_insert_eq.
Defined.



(** An entry behind one that does not decode: a key of the merged mapping
    for which no file is ever opened. *)
Lemma entry_behind_fault_not_materialized :
  In "b.md" (keys (dict_merge (py_dict [("a.md", JStr "A"); ("b.md", JStr "QQ==")])
                     (py_dict []))) /\
  ((convert' (py_dict [("a.md", JStr "A"); ("b.md", JStr "QQ==")]) (py_dict []) [] world0).1
   = Raised BinasciiError) /\
  (calls (convert' (py_dict [("a.md", JStr "A"); ("b.md", JStr "QQ==")]) (py_dict []) []
            world0).2
   = [ Mkdtemp tmpdir; Mkdir files_path; Open_wb (files_path ++ ["a.md"]); Rmtree tmpdir ]) /\
  (written (calls (convert' (py_dict [("a.md", JStr "A"); ("b.md", JStr "QQ==")]) (py_dict [])
                     [] world0).2) = []).
Proof. vm_compute. split_and!; auto. Qed.

Lemma merged_mapping_materialized_witness :
  (for_each (dict_merge (py_dict [("a.md", JStr "QQ==")])
               (py_dict [("a.md", JStr "Qg=="); ("b.css", JStr "Qw==")]))
     (materialize urlopen files_path) (sandbox_ready tmpdir world0)).1 = Val tt /\
  exists c,
    calls (for_each (dict_merge (py_dict [("a.md", JStr "QQ==")])
                       (py_dict [("a.md", JStr "Qg=="); ("b.css", JStr "Qw==")]))
             (materialize urlopen files_path) (sandbox_ready tmpdir world0)).2
    = (calls (sandbox_ready tmpdir world0) ++ c)%list /\
    Forall2 (materialized_as urlopen files_path) (written c)
      [("a.md", JStr "Qg=="); ("b.css", JStr "Qw==")].
Proof.
  split; [reflexivity|].
  destruct (merged_mapping_materialized tmpdir urlopen pandoc
              [("a.md", JStr "QQ==")] [("a.md", JStr "Qg=="); ("b.css", JStr "Qw==")]
              [] world0) as (_ & _ & _ & Hloop & _).
  destruct (Hloop (sandbox_ready tmpdir world0)) as (c & Hc & _ & Hall).
  exists c. split; [exact Hc|]. exact (Hall eq_refl).
Defined.

Lemma null_content_only_rejection_witness :
  (join_resolve files_path "a.md" = inr (files_path ++ ["a.md"])%list /\
   is_relative_to (files_path ++ ["a.md"])%list files_path = true) /\
  materialize urlopen files_path ("a.md", JNull) world0 = (Returned, rejected 400 world0) /\
  materialize urlopen files_path ("a.md", JInt 5) world0 = (Raised AttributeError, world0) /\
  materialize urlopen files_path ("a.md", JArr [JStr "QQ=="]) world0
  = (Raised AttributeError, world0).
Proof.
  split; [split; reflexivity|]. split_and!.
  - destruct (null_content_only_rejection urlopen files_path "a.md" JNull
                (files_path ++ ["a.md"])%list world0 eq_refl eq_refl) as (H & _).
    apply H. reflexivity.
  - destruct (null_content_only_rejection urlopen files_path "a.md" (JInt 5)
                (files_path ++ ["a.md"])%list world0 eq_refl eq_refl) as (_ & _ & H).
    apply H; discriminate.
  - destruct (null_content_only_rejection urlopen files_path "a.md" (JArr [JStr "QQ=="])
                (files_path ++ ["a.md"])%list world0 eq_refl eq_refl) as (_ & _ & H).
    apply H; discriminate.
Defined.


Lemma sandbox_lifetime_witness :
  tmpdir `prefix_of` files_path /\
  fs (convert' [("a.md", JStr "QQ==")] [] [] world0).2 !! files_path = None.
Proof.
  assert (H : tmpdir `prefix_of` files_path) by (exists ["files"]; reflexivity).
  split; [exact H|].
  destruct (sandbox_lifetime int (fun _ => Parsed JNull) tmpdir urlopen pandoc) as (Hconv & _).
  destruct (Hconv [("a.md", JStr "QQ==")] [] [] world0) as (mid & _ & _ & _ & _ & Hgone).
  exact (Hgone files_path H).
Defined.

End Runs.

(** * Further properties of the handler *)

(** ** Descriptors, lines 112-124 *)

Module Base64More.
Import Base64.

Lemma a2b_loop_strip s : forall qp lc pads out,
  a2b_loop (strip s) qp lc pads out = a2b_loop s qp lc pads out.
Proof.
  induction s as [|c s IH]; intros qp lc pads out; [reflexivity|].
  cbn [strip]. unfold significant.
  destruct (Ascii.eqb c BASE64_PAD) eqn:Epad; cbn [orb].
  - cbn [a2b_loop]. rewrite Epad, !IH. reflexivity.
  - destruct (table_a2b_base64 c) as [v|] eqn:Etab.
    + cbn [a2b_loop]. rewrite Epad, Etab.
      destruct qp as [|[|[|qp]]]; apply IH.
    + cbn [a2b_loop]. rewrite Epad, Etab. apply IH.
Qed.

Lemma a2b_loop_length s : forall qp lc pads out bs,
  a2b_loop s qp lc pads out = Some bs ->
  4 * length bs <= 4 * length out + 3 * String.length s + credit qp.
Proof.
  induction s as [|c s IH]; intros qp lc pads out bs; cbn [a2b_loop String.length].
  - destruct (Nat.eqb qp 0); [|discriminate]. intros [= <-].
    rewrite length_rev. lia.
  - destruct (Ascii.eqb c BASE64_PAD).
    + destruct (Nat.leb 2 qp).
      * destruct (Nat.leb 4 (qp + S pads)).
        -- intros [= <-]. rewrite length_rev. lia.
        -- intros H. apply IH in H. lia.
      * intros H. apply IH in H. lia.
    + destruct (table_a2b_base64 c) as [v|].
      * destruct qp as [|[|[|qp]]]; intros H; apply IH in H; cbn [length credit] in *; lia.
      * intros H. apply IH in H. lia.
Qed.

End Base64More.

Lemma strip_significant s :
  forallb significant (list_ascii_of_string (strip s)) = true.
Proof.
  induction s as [|c s IH]; [reflexivity|]. cbn [strip].
  destruct (significant c) eqn:E; [|exact IH].
  cbn [list_ascii_of_string forallb]. rewrite E. exact IH.
Qed.

Lemma strip_no_colon s p :
  In ":"%char (list_ascii_of_string p) -> startswith (strip s) p = false.
Proof.
  intros Hp. unfold startswith.
  destruct (String.prefix p (strip s)) eqn:E; [|reflexivity].
  pose proof (prefix_chars _ _ E _ Hp) as Hin.
  pose proof (strip_significant s) as Hall.
  rewrite forallb_forall in Hall. apply Hall in Hin. discriminate.
Qed.

Lemma isascii_strip s : isascii s = true -> isascii (strip s) = true.
Proof.
  unfold isascii. induction s as [|c s IH]; [reflexivity|].
  cbn [list_ascii_of_string forallb strip]. intros H.
  apply andb_prop in H as [Hc Hs].
  destruct (significant c); [|auto].
  cbn [list_ascii_of_string forallb]. rewrite Hc. auto.
Qed.

Lemma b64decode_strip s : isascii s = true -> b64decode (strip s) = b64decode s.
Proof.
  intros H. unfold b64decode, Base64.a2b_base64.
  rewrite H, (isascii_strip s H), Base64More.a2b_loop_strip. reflexivity.
Qed.

Lemma b64decode_length s bs : b64decode s = inr bs -> 4 * length bs <= 3 * String.length s.
Proof.
  unfold b64decode, Base64.a2b_base64. destruct (isascii s); [|discriminate].
  destruct (Base64.a2b_loop s 0 0 0 []) as [bs'|] eqn:E; [|discriminate].
  intros [= <-]. apply Base64More.a2b_loop_length in E. cbn in E. lia.
Qed.

Section MoreDescriptors.

Context (urlopen : string -> exn + bytes).

(** X9: in a descriptor that is ASCII text and not a URL, the characters
    outside the base64 alphabet and padding (line breaks, blanks, ...) do
    not count: the turn of the loop does the same with and without them. *)
Theorem foreign_characters_ignored fp name s w :
  isascii s = true ->
  startswith s "data:" = false ->
  (startswith s "http:" || startswith s "https:") = false ->
  materialize urlopen fp (name, JStr (strip s)) w =
  materialize urlopen fp (name, JStr s) w.
Proof.
  intros Hascii Hdata Hhttp. rewrite !materialize_eq.
  destruct (join_resolve fp name) as [e|p]; [reflexivity|].
  destruct (is_relative_to p fp); [|reflexivity].
  cbv zeta. destruct (can_open_wb (fs w) p); [|reflexivity].
  rewrite Hdata, Hhttp, !strip_no_colon by (cbn; tauto). cbn [orb].
  rewrite b64decode_strip by assumption. reflexivity.
Qed.

(** X10: a base64 descriptor that is materialized leaves a file of at most
    three quarters of its own length. *)
Theorem decoded_size_bound fp name s w w' :
  startswith s "data:" = false ->
  (startswith s "http:" || startswith s "https:") = false ->
  materialize urlopen fp (name, JStr s) w = (Val tt, w') ->
  exists p data,
    join_resolve fp name = inr p /\
    fs w' !! p = Some (File data) /\
    calls w' = (calls w ++ [Open_wb p; Write p data])%list /\
    4 * length data <= 3 * String.length s.
Proof.
  intros Hdata Hhttp. rewrite materialize_eq.
  destruct (join_resolve fp name) as [e|p]; [discriminate|].
  destruct (is_relative_to p fp); [|discriminate].
  cbv zeta. destruct (can_open_wb (fs w) p); [|discriminate].
  rewrite Hdata, Hhttp.
  destruct (b64decode s) as [e|data] eqn:Hdec; [discriminate|].
  intros [= <-]. exists p, data. split_and!.
  - reflexivity.
  - cbn [fs set_fs call]. apply lookup_insert_eq.
  - cbn [calls set_fs call]. rewrite <- app_assoc. reflexivity.
  - apply b64decode_length, Hdec.
Qed.

(** X7: the two inline forms of a descriptor agree.  Where [urlopen]
    answers a [data:] URI with the bytes [body], the turn of the loop ends
    as it does for the base64 encoding of [body] under the same name: the
    same outcome, the same file system, the same bytes sent and the same
    files written; and when it goes through, the file holds [body]. *)
Theorem inline_forms_agree fp name s body w :
  startswith s "data:" = true ->
  urlopen s = inr body ->
  let uri := materialize urlopen fp (name, JStr s) w in
  let b64 := materialize urlopen fp (name, JStr (Base64.b64encode body)) w in
  uri.1 = b64.1 /\ fs uri.2 = fs b64.2 /\ wire uri.2 = wire b64.2 /\
  (exists c c',
     calls uri.2 = (calls w ++ c)%list /\ calls b64.2 = (calls w ++ c')%list /\
     written c = written c') /\
  (uri.1 = Val tt ->
   exists p, join_resolve fp name = inr p /\ fs uri.2 !! p = Some (File body)).
Proof.
  intros Hs Hurl. cbv zeta. rewrite !materialize_eq. cbv zeta.
  rewrite !b64encode_no_colon by (cbn; tauto). cbn [orb].
  rewrite b64decode_b64encode, Hs, Hurl.
  destruct (join_resolve fp name) as [e|p].
  { split_and!; [reflexivity.. | | discriminate].
    exists [], []. rewrite app_nil_r. auto. }
  destruct (is_relative_to p fp).
  2:{ split_and!; [reflexivity.. | | discriminate].
      exists [], []. rewrite app_nil_r. auto. }
  destruct (can_open_wb (fs w) p).
  - split_and!; [reflexivity.. | |].
    + exists [Open_wb p; Urlopen s; Write p body], [Open_wb p; Write p body].
      cbn [snd calls call set_fs]. rewrite <- !app_assoc. auto.
    + intros _. exists p. split; [reflexivity|]. cbn [snd fs set_fs].
      apply lookup_insert_eq.
  - split_and!; [reflexivity.. | | discriminate].
    exists [Open_wb p], [Open_wb p]. auto.
Qed.

(** A descriptor that is not a URL and does not decode: the file has been
    created by then and is left empty, and the decoder's exception goes
    through. *)
Lemma undecodable_descriptor fp name s p e w :
  startswith s "data:" = false ->
  (startswith s "http:" || startswith s "https:") = false ->
  b64decode s = inl e ->
  join_resolve fp name = inr p ->
  is_relative_to p fp = true ->
  can_open_wb (fs w) p = true ->
  materialize urlopen fp (name, JStr s) w =
  (Raised e, World (<[p := File []]> (fs w)) (wire w) (calls w ++ [Open_wb p])).
Proof.
  intros Hdata Hhttp Hdec Hp Hrel Hopen.
  rewrite materialize_eq, Hp, Hrel, Hopen. cbv zeta. rewrite Hdata, Hhttp, Hdec.
  reflexivity.
Qed.

End MoreDescriptors.

(** ** The merged mapping, line 98 *)

Lemma filter_ext_elem {A} (P Q : A -> Prop) `{!forall x, Decision (P x)}
    `{!forall x, Decision (Q x)} (l : list A) :
  (forall x, x ∈ l -> (P x <-> Q x)) -> filter P l = filter Q l.
Proof.
  induction l as [|a l IH]; intros Hext; [reflexivity|].
  assert (Ha : P a <-> Q a) by (apply Hext; left).
  assert (Hl : filter P l = filter Q l)
    by (apply IH; intros x Hx; apply Hext; right; exact Hx).
  destruct (decide (P a)) as [HP|HP].
  - rewrite !filter_cons_True by tauto. rewrite Hl. reflexivity.
  - rewrite !filter_cons_False by tauto. exact Hl.
Qed.

Lemma keys_dict_update_order (d e : dict) :
  NoDup (keys e) ->
  keys (dict_update d e) = (keys d ++ filter (fun k => k ∉ keys d) (keys e))%list.
Proof.
  unfold dict_update. revert d.
  induction e as [|[k v] e IH]; intros d Hnd; cbn [fold_left map fst snd].
  - rewrite app_nil_r. reflexivity.
  - apply NoDup_cons in Hnd as [Hk Hnd]. rewrite IH by assumption.
    rewrite keys_dict_set. case_bool_decide as Hin.
    + rewrite filter_cons_False by tauto. reflexivity.
    + rewrite filter_cons_True by assumption. rewrite <- app_assoc. cbn [app]. do 2 f_equal.
      apply filter_ext_elem. intros x Hx.
      rewrite elem_of_app, list_elem_of_singleton.
      split; [tauto|]. intros Hxd [?| ->]; [tauto|]. apply Hk, Hx.
Qed.

(** X6: the loop takes the keys of [files] first, in their order, whatever
    [extra_files] says about them, and then the keys only [extra_files]
    has, in its order. *)
Theorem merged_mapping_order (fm em : list (string * json)) :
  let files := py_dict fm in
  let extra := py_dict em in
  keys (dict_merge files extra) =
  (keys files ++ filter (fun k => k ∉ keys files) (keys extra))%list.
Proof.
  cbv zeta. rewrite dict_merge_eq by apply NoDup_py_dict.
  apply keys_dict_update_order, NoDup_py_dict.
Qed.

(** ** The whole handler, lines 21-151 *)

Lemma statuses_app l1 l2 : statuses (l1 ++ l2) = (statuses l1 ++ statuses l2)%list.
Proof. induction l1 as [|c l1 IH]; [reflexivity|]. destruct c; cbn; rewrite ?IH; reflexivity. Qed.

Section MoreWholeHandler.

Context (int : string -> option Z) (loads : bytes -> parsed)
  (tmpdir : Path) (urlopen : string -> exn + bytes)
  (pandoc : list string -> Path -> gmap Path node -> exn + completed).

Local Abbreviation fp := (tmpdir ++ ["files"])%list.
Local Abbreviation do_POST' token := (do_POST token int loads tmpdir urlopen pandoc).
Local Abbreviation handle_payload' := (handle_payload tmpdir urlopen pandoc).
Local Abbreviation convert' := (convert tmpdir urlopen pandoc).

Local Abbreviation after' := (after_authorization int loads tmpdir urlopen pandoc).

Lemma do_POST_eq token self w :
  do_POST' token self w =
  if negb (path self =? "/")%string then (Returned, rejected 404 w)
  else
    match token with
    | Some t =>
        if negb (headers_contains "Authorization" (headers self))
        then (Returned, rejected 401 w)
        else if negb (bool_decide (headers_get "Authorization" (headers self)
                                   = Some ("Bearer " +:+ t)))
        then (Returned, rejected 403 w)
        else after' self w
    | None => after' self w
    end.
Proof.
  unfold do_POST, check_authorization, after_authorization.
  destruct (negb (path self =? "/")%string); [reflexivity|].
  destruct token as [t|]; [|reflexivity].
  destruct (negb (headers_contains "Authorization" (headers self))); [reflexivity|].
  destruct (negb (bool_decide (headers_get "Authorization" (headers self)
                               = Some ("Bearer " +:+ t)))); reflexivity.
Qed.

Lemma after_authorization_eq self w :
  after' self w =
  if negb (bool_decide (headers_get "Content-Type" (headers self) = Some "application/json"))
  then (Returned, rejected 400 w)
  else
    match headers_get "Content-Length" (headers self) with
    | None => (Raised TypeError, w)
    | Some s =>
        match int s with
        | None => (Raised ValueError, w)
        | Some n =>
            match rfile self n with
            | inl e => (Raised e, w)
            | inr content =>
                match loads content with
                | JSONDecodeError => (Returned, rejected 400 w)
                | ParseFault => (Returned, rejected 500 w)
                | Parsed payload => handle_payload' payload w
                end
            end
        end
    end.
Proof.
  unfold after_authorization. run_monad.
  destruct (negb (bool_decide _)); [reflexivity|].
  destruct (headers_get "Content-Length" (headers self)) as [s|]; [|reflexivity].
  destruct (int s) as [n|]; [|reflexivity].
  destruct (rfile self n) as [e|content]; [reflexivity|].
  destruct (loads content); reflexivity.
Qed.

(** What lines 64-151 send. *)
Lemma handle_payload_shape payload w :
  exists out,
    wire (handle_payload' payload w).2 = (wire w ++ out)%list /\
    ( (exists e, (handle_payload' payload w).1 = Raised e /\ out = [])
      \/ ((handle_payload' payload w).1 = Returned /\
          out = [Send_response 400; End_headers])
      \/ (exists rc so se,
            out = tool_response rc so se /\
            (handle_payload' payload w).1 = (if (rc =? 0)%Z then Val tt else Returned)) ).
Proof.
  unfold handle_payload. run_monad.
  destruct (validate_cases payload w) as [[[[files extra] args] Hv] | [Hv | [e Hv]]];
    rewrite Hv.
  - destruct (convert' files extra args w) as [r w'] eqn:Hrun. cbn [fst snd].
    apply convert_trace in Hrun as (cl & tail & _ & _ & Hcase).
    destruct Hcase as [[_ [[-> Hw] | (e & -> & Hw)]]
                      | (sargs & w1 & _ & _ & _ & [(e & _ & _ & -> & Hw) | (done & _ & _ & Hw & ->)])].
    + eexists. split; [exact Hw|]. right; left. auto.
    + exists []. rewrite app_nil_r. split; [exact Hw|]. left. eauto.
    + exists []. rewrite app_nil_r. split; [exact Hw|]. left. eauto.
    + eexists. split; [exact Hw|]. right; right. eauto.
  - eexists. split; [cbn; rewrite <- app_assoc; reflexivity|]. right; left. auto.
  - exists []. rewrite app_nil_r. split; [reflexivity|]. left. eauto.
Qed.

(** What lines 41-151 send. *)
Lemma after_authorization_shape self w :
  exists out,
    wire (after' self w).2 = (wire w ++ out)%list /\
    ( (exists e, (after' self w).1 = Raised e /\ out = [])
      \/ ((after' self w).1 = Returned /\
          exists code, In code [400; 500] /\ out = [Send_response code; End_headers])
      \/ (exists rc so se,
            out = tool_response rc so se /\
            (after' self w).1 = (if (rc =? 0)%Z then Val tt else Returned)) ).
Proof.
  rewrite after_authorization_eq.
  destruct (negb (bool_decide _)).
  { eexists. split; [cbn; rewrite <- app_assoc; reflexivity|].
    right; left. split; [reflexivity|]. exists 400. split; [cbn; tauto | reflexivity]. }
  destruct (headers_get "Content-Length" (headers self)) as [s|];
    [|exists []; rewrite app_nil_r; split; [reflexivity|]; left; eauto].
  destruct (int s) as [n|];
    [|exists []; rewrite app_nil_r; split; [reflexivity|]; left; eauto].
  destruct (rfile self n) as [e|content];
    [exists []; rewrite app_nil_r; split; [reflexivity|]; left; eauto|].
  destruct (loads content) as [payload| |].
  - destruct (handle_payload_shape payload w)
      as (out & Hw & [(e & Hr & ->) | [(Hr & ->) | (rc & so & se & -> & Hr)]]).
    + exists []. split; [exact Hw|]. left. eauto.
    + eexists. split; [exact Hw|]. right; left. split; [exact Hr|].
      exists 400. split; [cbn; tauto | reflexivity].
    + eexists. split; [exact Hw|]. right; right. eauto.
  - eexists. split; [cbn; rewrite <- app_assoc; reflexivity|].
    right; left. split; [reflexivity|]. exists 400. split; [cbn; tauto | reflexivity].
  - eexists. split; [cbn; rewrite <- app_assoc; reflexivity|].
    right; left. split; [reflexivity|]. exists 500. split; [cbn; tauto | reflexivity].
Qed.

Ltac bare_rejection :=
  eexists; split; [cbn; rewrite <- app_assoc; reflexivity|];
  right; left; split; [reflexivity|];
  eexists; split; [|reflexivity]; cbn; tauto.

Ltac from_shape self w :=
  destruct (after_authorization_shape self w)
    as (out & Hw & [(e & Hr & ->) | [(Hr & code & Hcode & ->) | (rc & so & se & -> & Hr)]]).

(** X1: every request is answered at most once and never in part: what the
    handler sends is nothing at all, and then it ends with an exception;
    or one bare status line among 404, 401, 403, 400, 500; or the tool's
    standard error behind status 500; or the tool's standard output behind
    status 200 with its two headers.  Only the last ends by falling
    through. *)
Theorem one_response token self w :
  exists out,
    wire (do_POST' token self w).2 = (wire w ++ out)%list /\
    ( (exists e, (do_POST' token self w).1 = Raised e /\ out = [])
      \/ ((do_POST' token self w).1 = Returned /\
          exists code, In code [404; 401; 403; 400; 500] /\
                       out = [Send_response code; End_headers])
      \/ ((do_POST' token self w).1 = Returned /\
          exists se, out = [Send_response 500; End_headers; Wfile_write se])
      \/ ((do_POST' token self w).1 = Val tt /\
          exists so,
            out = [ Send_response 200;
                    Send_header "Content-Type" "application/octet-stream";
                    Send_header "Content-Length" (str_of_nat (length so));
                    End_headers;
                    Wfile_write so ]) ).
Proof.
  assert (Hafter :
    exists out,
      wire (after' self w).2 = (wire w ++ out)%list /\
      ( (exists e, (after' self w).1 = Raised e /\ out = [])
        \/ ((after' self w).1 = Returned /\
            exists code, In code [404; 401; 403; 400; 500] /\
                         out = [Send_response code; End_headers])
        \/ ((after' self w).1 = Returned /\
            exists se, out = [Send_response 500; End_headers; Wfile_write se])
        \/ ((after' self w).1 = Val tt /\
            exists so,
              out = [ Send_response 200;
                      Send_header "Content-Type" "application/octet-stream";
                      Send_header "Content-Length" (str_of_nat (length so));
                      End_headers;
                      Wfile_write so ]) )).
  { from_shape self w.
    - exists []. split; [exact Hw|]. left. eauto.
    - eexists. split; [exact Hw|]. right; left. split; [exact Hr|].
      exists code. split; [destruct Hcode as [<-|[<-|[]]]; cbn; tauto | reflexivity].
    - eexists. split; [exact Hw|]. unfold tool_response.
      destruct (rc =? 0)%Z.
      + right; right; right. split; [exact Hr|]. eauto.
      + right; right; left. split; [exact Hr|]. eauto. }
  rewrite do_POST_eq.
  destruct (negb (path self =? "/")%string); [bare_rejection|].
  destruct token as [t|]; [|exact Hafter].
  destruct (negb (headers_contains "Authorization" (headers self))); [bare_rejection|].
  destruct (negb (bool_decide (headers_get "Authorization" (headers self)
                               = Some ("Bearer " +:+ t)))); [bare_rejection|].
  exact Hafter.
Qed.

Lemma tool_response_statuses rc so se :
  statuses (tool_response rc so se) = [200] \/ statuses (tool_response rc so se) = [500].
Proof. unfold tool_response. destruct (rc =? 0)%Z; cbn; auto. Qed.

Lemma after_authorization_statuses self w :
  exists out,
    wire (after' self w).2 = (wire w ++ out)%list /\
    forall code, In code (statuses out) -> code = 400 \/ code = 500 \/ code = 200.
Proof.
  from_shape self w; (eexists; split; [exact Hw|]); cbn.
  - intros c [].
  - intros c [<-|[]]. destruct Hcode as [<-|[<-|[]]]; auto.
  - intros c Hin. destruct (tool_response_statuses rc so se) as [E|E];
      rewrite E in Hin; destruct Hin as [<-|[]]; auto.
Qed.

(** X2: what the three early status lines mean: 404 is sent exactly when the
    path is not [/]; 401 exactly when the path is [/], a token is
    configured and there is no [Authorization] header; 403 exactly when
    the path is [/], a token is configured, the header is there and its
    value is not [Bearer] followed by the token. *)
Theorem early_status_lines token self w :
  exists out,
    wire (do_POST' token self w).2 = (wire w ++ out)%list /\
    (In 404 (statuses out) <-> path self <> "/") /\
    (In 401 (statuses out) <->
     path self = "/" /\
     exists t, token = Some t /\ headers_contains "Authorization" (headers self) = false) /\
    (In 403 (statuses out) <->
     path self = "/" /\
     exists t, token = Some t /\
       headers_contains "Authorization" (headers self) = true /\
       headers_get "Authorization" (headers self) <> Some ("Bearer " +:+ t)).
Proof.
  rewrite do_POST_eq.
  destruct (String.eqb_spec (path self) "/") as [Hpath|Hpath]; cbn [negb].
  2:{ eexists. split; [cbn; rewrite <- app_assoc; reflexivity|]. cbn.
      split_and!.
      - split; [intros _; exact Hpath | auto].
      - split; [intros [[=]|[]] | tauto].
      - split; [intros [[=]|[]] | tauto]. }
  assert (Hafter : forall P1 P2 : Prop, ~ P1 -> ~ P2 ->
    exists out,
      wire (after' self w).2 = (wire w ++ out)%list /\
      (In 404 (statuses out) <-> path self <> "/") /\
      (In 401 (statuses out) <-> path self = "/" /\ P1) /\
      (In 403 (statuses out) <-> path self = "/" /\ P2)).
  { intros P1 P2 H1 H2.
    destruct (after_authorization_statuses self w) as (out & Hw & Hcodes).
    exists out. split; [exact Hw|].
    split_and!; (split; [intros Hin; apply Hcodes in Hin; lia | tauto]). }
  destruct token as [t|].
  - destruct (headers_contains "Authorization" (headers self)) eqn:Hc; cbn [negb].
    + case_bool_decide as Hv; cbn [negb].
      * apply Hafter.
        -- intros (t' & _ & [=]).
        -- intros (t' & [= <-] & _ & Hne). contradiction.
      * eexists. split; [cbn; rewrite <- app_assoc; reflexivity|]. cbn.
        split_and!.
        -- split; [intros [[=]|[]] | tauto].
        -- split; [intros [[=]|[]] | intros (_ & t' & _ & [=])].
        -- split; [intros _; split; [exact Hpath | eauto] | auto].
    + eexists. split; [cbn; rewrite <- app_assoc; reflexivity|]. cbn.
      split_and!.
      * split; [intros [[=]|[]] | tauto].
      * split; [intros _; split; [exact Hpath | eauto] | auto].
      * split; [intros [[=]|[]] | intros (_ & t' & _ & [=] & _)].
  - apply Hafter; intros (t' & [=] & _).
Qed.

(** X3: on the path [/], for a request that carries what the token asks for:
    a content type other than exactly [application/json] is answered 400
    whatever the body; without a [Content-Length] header, or with one that
    is no integer, the handler raises and sends nothing; so it does, with
    the exception of the read, when reading that many bytes raises (a
    length below -1, a length no machine can hold, a broken connection);
    a body that is not JSON is answered 400 and any other fault of the
    parser 500; in all these cases no call to the system is made. *)
Theorem body_errors token self w :
  path self = "/" ->
  authorized token self ->
  (headers_get "Content-Type" (headers self) <> Some "application/json" ->
   do_POST' token self w = (Returned, rejected 400 w)) /\
  (headers_get "Content-Type" (headers self) = Some "application/json" ->
   (headers_get "Content-Length" (headers self) = None ->
    do_POST' token self w = (Raised TypeError, w)) /\
   (forall s, headers_get "Content-Length" (headers self) = Some s ->
      (int s = None -> do_POST' token self w = (Raised ValueError, w)) /\
      (forall n, int s = Some n ->
         (forall e, rfile self n = inl e -> do_POST' token self w = (Raised e, w)) /\
         (forall content, rfile self n = inr content ->
            (loads content = JSONDecodeError ->
             do_POST' token self w = (Returned, rejected 400 w)) /\
            (loads content = ParseFault ->
             do_POST' token self w = (Returned, rejected 500 w)) /\
            (forall payload, loads content = Parsed payload ->
               do_POST' token self w = handle_payload' payload w))))).
Proof.
  intros Hpath Hauth.
  assert (Heq : do_POST' token self w = after' self w).
  { rewrite do_POST_eq, Hpath. cbn [negb String.eqb Ascii.eqb].
    destruct token as [t|]; [|reflexivity]. cbn in Hauth.
    rewrite headers_contains_get, Hauth.
    rewrite (bool_decide_eq_true_2 (is_Some _)) by eauto.
    rewrite bool_decide_eq_true_2 by reflexivity. reflexivity. }
  rewrite Heq, after_authorization_eq. split.
  - intros Hct. rewrite bool_decide_eq_false_2 by assumption. reflexivity.
  - intros Hct. rewrite bool_decide_eq_true_2 by assumption. cbn [negb]. split.
    + intros ->. reflexivity.
    + intros s ->. split; [intros ->; reflexivity|].
      intros n ->. split; [intros e ->; reflexivity|].
      intros content ->.
      split_and!; [intros ->; reflexivity.. | intros payload ->; reflexivity].
Qed.

(** X4: a payload that is not a JSON object never gets as far as the sandbox:
    an array is answered 400 unless the string [files] is one of its
    elements, a string is answered 400 unless it contains [files], and in
    the remaining cases (those two, null, a boolean, a number) the handler
    raises and sends nothing. *)
Theorem non_object_payload payload w :
  (forall members, payload <> JObj members) ->
  handle_payload' payload w =
  match payload with
  | JArr items =>
      if existsb (is_str "files") items then (Raised TypeError, w)
      else (Returned, rejected 400 w)
  | JStr s =>
      if str_contains "files" s then (Raised AttributeError, w)
      else (Returned, rejected 400 w)
  | _ => (Raised TypeError, w)
  end.
Proof.
  intros Hobj. unfold handle_payload, validate, py_in, py_pop. run_monad.
  destruct payload as [| | | | s | items | members]; try reflexivity.
  - destruct (str_contains "files" s); reflexivity.
  - destruct (existsb (is_str "files") items); reflexivity.
  - exfalso. eapply Hobj. reflexivity.
Qed.

(** X5: the tool is started only with arguments that are strings without NUL:
    when some element of [args] is anything else, no tool is started and
    the request ends with a 400 of the loop or with an exception, nothing
    being sent then; the files before that have been written all the
    same. *)
Theorem unusable_args files extra args a w :
  a ∈ args ->
  (forall s, a = JStr s -> has_nul s = true) ->
  exists c,
    calls (convert' files extra args w).2 = (calls w ++ c)%list /\
    popens c = [] /\
    ( ((convert' files extra args w).1 = Returned /\
       wire (convert' files extra args w).2 =
       (wire w ++ [Send_response 400; End_headers])%list)
      \/
      (exists e, (convert' files extra args w).1 = Raised e /\
                 wire (convert' files extra args w).2 = wire w) ) /\
    ( (for_each (dict_merge files extra) (materialize urlopen fp)
         (sandbox_ready tmpdir w)).1 = Val tt ->
      fs (entered tmpdir w) !! fp = None ->
      exists e, (convert' files extra args w).1 = Raised e /\ (e = TypeError \/ e = ValueError) ).
Proof.
  intros Hin Hbad.
  assert (Hargs : forall argv,
            fsencode_args ([JStr "pandoc"] ++ args ++ map JStr (keys files)
                             ++ [JStr "-o"; JStr "-"]) <> inr argv).
  { intros argv Hargv.
    pose proof (fsencode_args_clean _ _ Hargv) as Hclean.
    apply pandoc_argv in Hargv as (sargs & -> & ->).
    apply list_elem_of_In, in_map_iff in Hin as (s & <- & Hs).
    specialize (Hbad s eq_refl).
    apply Forall_cons in Hclean as [_ Hclean].
    apply Forall_app in Hclean as [Hclean _].
    rewrite Forall_forall in Hclean. apply list_elem_of_In in Hs.
    rewrite (Hclean s Hs) in Hbad. discriminate. }
  assert (Hkind : forall l e, fsencode_args l = inl e -> e = TypeError \/ e = ValueError).
  { intros l. induction l as [|x l IH]; intros e; cbn; [discriminate|].
    destruct x; try (intros [= <-]; auto).
    destruct (has_nul s); [intros [= <-]; auto|].
    destruct (fsencode_args l) as [e'|]; [intros [= <-]; eauto | discriminate]. }
  destruct (convert' files extra args w) as [r w'] eqn:Hrun. cbn [fst snd].
  apply convert_exits in Hrun.
  destruct Hrun as [Hm | r w1 Hm Hloop Hr | e w1 Hm Hloop Hargs'
                   | argv e w1 Hm Hloop Hargs' Hrun' | argv done w1 r w2 Hm Hloop Hargs' Hrun' Hresp];
    try (exfalso; eapply Hargs; eassumption).
  - exists [Mkdtemp tmpdir; Mkdir fp; Rmtree tmpdir].
    split_and!; [trace_eq | reflexivity | right; eauto |].
    intros _ Hnone. contradiction.
  - pose proof Hloop as Hloop'.
    apply loop_spec in Hloop as (cl & Hc & Hcl & Hret & Hoth).
    apply loop_calls_quiet in Hcl as (Hp & _).
    exists (Mkdtemp tmpdir :: Mkdir fp :: cl ++ [Rmtree tmpdir])%list. split_and!.
    + cbn [calls cleaned call set_fs]. rewrite Hc. trace_eq.
    + cbn. rewrite popens_app, Hp. reflexivity.
    + cbn [wire cleaned call set_fs]. destruct r as [[]| |e]; [contradiction | left | right].
      * split; [reflexivity|]. rewrite Hret by reflexivity. reflexivity.
      * exists e. split; [reflexivity|]. rewrite Hoth by discriminate. reflexivity.
    + rewrite Hloop'. cbn. intros ->. contradiction.
  - apply loop_spec in Hloop as (cl & Hc & Hcl & Hret & Hoth).
    apply loop_calls_quiet in Hcl as (Hp & _).
    exists (Mkdtemp tmpdir :: Mkdir fp :: cl ++ [Rmtree tmpdir])%list. split_and!.
    + cbn [calls cleaned call set_fs]. rewrite Hc. trace_eq.
    + cbn. rewrite popens_app, Hp. reflexivity.
    + right. exists e. split; [reflexivity|].
      cbn [wire cleaned call set_fs]. rewrite Hoth by discriminate. reflexivity.
    + intros _ _. exists e. split; [reflexivity|]. eapply Hkind, Hargs'.
Qed.


End MoreWholeHandler.

(** ** The file system, lines 92-124 *)

Lemma prefix_of_app_cons (root : Path) (x : string) (q : Path) :
  (root ++ [x])%list `prefix_of` q -> root `prefix_of` q.
Proof. intros [k ->]. exists (x :: k). rewrite <- app_assoc. reflexivity. Qed.

Lemma rmtree_outside (root : Path) (f : gmap Path node) (q : Path) :
  ~ root `prefix_of` q -> rmtree_fs root f !! q = f !! q.
Proof.
  intros Hq. unfold rmtree_fs. destruct (f !! q) as [n|] eqn:E.
  - apply map_lookup_filter_Some. split; [exact E | exact Hq].
  - apply map_lookup_filter_None. left. exact E.
Qed.

Lemma nested_parent (root p : Path) :
  root `prefix_of` p -> length root + 2 <= length p ->
  exists q, parent p = Some q /\ root `prefix_of` q /\ q <> root /\ p <> root.
Proof.
  intros [k ->] Hlen. rewrite length_app in Hlen.
  destruct k as [|a [|b k]]; cbn in Hlen; try lia.
  exists (removelast (root ++ a :: b :: k)). split_and!.
  - unfold parent. destruct (root ++ a :: b :: k)%list eqn:E; [|reflexivity].
    apply app_eq_nil in E as [_ [=]].
  - rewrite removelast_app by discriminate. exists (removelast (a :: b :: k)). reflexivity.
  - rewrite removelast_app by discriminate. cbn [removelast].
    intros E. rewrite <- (app_nil_r root) in E at 2. apply app_inv_head in E. discriminate E.
  - intros E. rewrite <- (app_nil_r root) in E at 2. apply app_inv_head in E. discriminate E.
Qed.

Section FileSystem.

Context (urlopen : string -> exn + bytes).

(** What one turn of the loop does to the file system. *)
Lemma materialize_fs fp entry w r w' :
  materialize urlopen fp entry w = (r, w') ->
  fs w' = fs w \/
  exists p data, fp `prefix_of` p /\ fs w' = <[p := File data]> (fs w).
Proof.
  destruct entry as [name content]. rewrite materialize_eq.
  destruct (join_resolve fp name) as [e|p]; [intros [= <- <-]; auto|].
  destruct (is_relative_to p fp) eqn:Hrel; [|intros [= <- <-]; auto].
  apply is_relative_to_prefix in Hrel.
  destruct content; try (intros [= <- <-]; auto).
  cbv zeta. destruct (can_open_wb (fs w) p); [|intros [= <- <-]; auto].
  destruct (startswith s "data:");
    [destruct (urlopen s); intros [= <- <-]; right; eauto|].
  destruct (startswith s "http:" || startswith s "https:");
    [destruct (urlopen s); intros [= <- <-]; right; eauto|].
  destruct (b64decode s); intros [= <- <-]; right; eauto.
Qed.

Lemma materialize_Val fp entry w w' :
  materialize urlopen fp entry w = (Val tt, w') ->
  exists c p data,
    calls w' = (calls w ++ c)%list /\ written c = [(p, data)] /\
    fs w' = <[p := File data]> (fs w).
Proof.
  destruct entry as [name content]. rewrite materialize_eq.
  destruct (join_resolve fp name) as [e|p]; [discriminate|].
  destruct (is_relative_to p fp); [|discriminate].
  destruct content; try discriminate.
  cbv zeta. destruct (can_open_wb (fs w) p); [|discriminate].
  destruct (startswith s "data:").
  { destruct (urlopen s) as [e|body]; intros [= <-].
    exists [Open_wb p; Urlopen s; Write p body], p, body.
    cbn [calls call set_fs fs]. rewrite <- !app_assoc. auto. }
  destruct (startswith s "http:" || startswith s "https:");
    [destruct (urlopen s); discriminate|].
  destruct (b64decode s) as [e|data]; intros [= <-].
  exists [Open_wb p; Write p data], p, data.
  cbn [calls call set_fs fs]. rewrite <- !app_assoc. auto.
Qed.

Lemma loop_outside fp l : forall w r w',
  for_each l (materialize urlopen fp) w = (r, w') ->
  forall q, ~ fp `prefix_of` q -> fs w' !! q = fs w !! q.
Proof.
  induction l as [|x l IH]; intros w r w'; [intros [= <- <-]; reflexivity|].
  rewrite for_each_cons.
  destruct (materialize urlopen fp x w) as [r1 w1] eqn:Hx.
  assert (Hstep : forall q, ~ fp `prefix_of` q -> fs w1 !! q = fs w !! q).
  { intros q Hq. apply materialize_fs in Hx as [->|(p & data & Hp & ->)]; [reflexivity|].
    apply lookup_insert_ne. intros ->. contradiction. }
  destruct r1 as [[]| |e].
  - intros H q Hq. rewrite (IH _ _ _ H q Hq). auto.
  - intros [= <- <-]. exact Hstep.
  - intros [= <- <-]. exact Hstep.
Qed.

Lemma loop_flat fp l : forall w r w',
  for_each l (materialize urlopen fp) w = (r, w') ->
  flat fp (fs w) -> flat fp (fs w').
Proof.
  induction l as [|x l IH]; intros w r w'; [intros [= <- <-]; auto|].
  rewrite for_each_cons.
  destruct (materialize urlopen fp x w) as [r1 w1] eqn:Hx.
  assert (Hstep : flat fp (fs w) -> flat fp (fs w1)).
  { intros Hflat. apply materialize_fs in Hx as [->|(p & data & Hp & ->)]; [exact Hflat|].
    intros q Hq Hne. destruct (decide (p = q)) as [->|Hpq].
    - rewrite lookup_insert_eq. discriminate.
    - rewrite lookup_insert_ne by assumption. auto. }
  destruct r1 as [[]| |e].
  - intros H Hflat. eapply IH; eauto.
  - intros [= <- <-]. exact Hstep.
  - intros [= <- <-]. exact Hstep.
Qed.

(** X11: when the loop has gone through, one file has been written for each
    entry, in order, and the file system is the one before with, at every
    path written, the bytes written there last: of two names for one file,
    the later entry wins. *)
Theorem disk_after_loop fp l w w' :
  for_each l (materialize urlopen fp) w = (Val tt, w') ->
  exists c,
    calls w' = (calls w ++ c)%list /\
    Forall2 (materialized_as urlopen fp) (written c) l /\
    forall q,
      fs w' !! q =
      match last_write q (written c) with
      | Some data => Some (File data)
      | None => fs w !! q
      end.
Proof.
  intros Hrun.
  destruct (loop_written urlopen fp l w w' Hrun) as (c & Hc & Hall).
  exists c. split; [exact Hc|]. split; [exact Hall|].
  clear Hall. revert w c Hrun Hc.
  induction l as [|x l IH]; intros w c.
  - intros [= <-] Hc. rewrite <- (app_nil_r (calls w)) in Hc at 1.
    apply app_inv_head in Hc as <-. reflexivity.
  - rewrite for_each_cons.
    destruct (materialize urlopen fp x w) as [[[]| |e] w1] eqn:Hx; [|discriminate..].
    apply materialize_Val in Hx as (c1 & p & data & Hc1 & Hw1 & Hfs).
    intros Hrest Hc.
    destruct (loop_written urlopen fp l w1 w' Hrest) as (c2 & Hc2 & _).
    assert (c = (c1 ++ c2)%list) as ->.
    { rewrite Hc2, Hc1, <- app_assoc in Hc. apply app_inv_head in Hc. auto. }
    intros q. rewrite (IH w1 c2 Hrest Hc2 q), written_app, Hw1. cbn [app last_write].
    destruct (last_write q (written c2)); [reflexivity|].
    rewrite Hfs. case_bool_decide as Hpq.
    + subst q. apply lookup_insert_eq.
    + apply lookup_insert_ne. exact Hpq.
Qed.

Lemma nested_not_materialized fp name content p w :
  flat fp (fs w) ->
  join_resolve fp name = inr p ->
  fp `prefix_of` p -> length fp + 2 <= length p ->
  (materialize urlopen fp (name, content) w).1 <> Val tt /\
  forall s, content = JStr s ->
    materialize urlopen fp (name, content) w = (Raised OSError, call (Open_wb p) w).
Proof.
  intros Hflat Hp Hpre Hlen.
  assert (Hrel : is_relative_to p fp = true) by (apply bool_decide_eq_true_2, Hpre).
  rewrite materialize_eq, Hp, Hrel.
  destruct (nested_parent fp p Hpre Hlen) as (q & Hq & Hqpre & Hqne & Hpne).
  assert (Hopen : can_open_wb (fs w) p = false).
  { unfold can_open_wb. rewrite Hq. apply andb_false_intro2.
    pose proof (Hflat p Hpre Hpne) as H1. pose proof (Hflat q Hqpre Hqne) as H2.
    destruct (fs w !! p) as [[]|]; try reflexivity; try contradiction;
      destruct (fs w !! q) as [[]|]; try reflexivity; contradiction. }
  destruct content; try (split; [discriminate | intros ? [=]]).
  cbv zeta. rewrite Hopen. split; [discriminate | intros ? _; reflexivity].
Qed.

End FileSystem.

(** ** Requests and the file system around the sandbox *)

Section AroundSandbox.

Context (int : string -> option Z) (loads : bytes -> parsed)
  (tmpdir : Path) (urlopen : string -> exn + bytes)
  (pandoc : list string -> Path -> gmap Path node -> exn + completed).

Local Abbreviation fp := (tmpdir ++ ["files"])%list.
Local Abbreviation do_POST' token := (do_POST token int loads tmpdir urlopen pandoc).
Local Abbreviation convert' := (convert tmpdir urlopen pandoc).

Lemma tmpdir_not_below (q : Path) : fp `prefix_of` q -> q <> tmpdir.
Proof.
  intros [k ->] E. rewrite <- app_assoc in E.
  rewrite <- (app_nil_r tmpdir) in E at 2. apply app_inv_head in E. discriminate E.
Qed.

Lemma sandbox_ready_flat w : fresh tmpdir (fs w) -> flat fp (fs (sandbox_ready tmpdir w)).
Proof.
  intros Hfresh q Hq Hne. cbn [sandbox_ready entered fs call set_fs].
  rewrite lookup_insert_ne by congruence.
  rewrite lookup_insert_ne by (apply not_eq_sym, tmpdir_not_below, Hq).
  rewrite (Hfresh q); [discriminate|]. eapply prefix_of_app_cons, Hq.
Qed.

Lemma sandbox_ready_outside w (q : Path) :
  ~ tmpdir `prefix_of` q -> fs (sandbox_ready tmpdir w) !! q = fs w !! q.
Proof.
  intros Hq. cbn [sandbox_ready entered fs call set_fs].
  rewrite lookup_insert_ne.
  - apply lookup_insert_ne. intros ->. apply Hq. reflexivity.
  - intros <-. apply Hq. exists ["files"]. reflexivity.
Qed.

Lemma undecodable_not_materialized name s e w :
  startswith s "data:" = false ->
  (startswith s "http:" || startswith s "https:") = false ->
  b64decode s = inl e ->
  (materialize urlopen fp (name, JStr s) w).1 <> Val tt.
Proof.
  intros Hdata Hhttp Hdec. rewrite materialize_eq.
  destruct (join_resolve fp name) as [e'|p]; [discriminate|].
  destruct (is_relative_to p fp); [|discriminate].
  cbv zeta. destruct (can_open_wb (fs w) p); [|discriminate].
  rewrite Hdata, Hhttp, Hdec. discriminate.
Qed.

Lemma loop_stops_at (l : list (string * json)) entry :
  (forall w, (materialize urlopen fp entry w).1 <> Val tt) ->
  entry ∈ l ->
  forall w, (for_each l (materialize urlopen fp) w).1 <> Val tt.
Proof.
  intros Hentry. induction l as [|x l IH]; intros Hin w; [inversion Hin|].
  rewrite for_each_cons. apply elem_of_cons in Hin as [<-|Hin].
  - specialize (Hentry w).
    destruct (materialize urlopen fp entry w) as [[[]| |e] w1];
      [contradiction | discriminate..].
  - destruct (materialize urlopen fp x w) as [[[]| |e] w1]; [auto | discriminate..].
Qed.

(** X8: one descriptor that is not a URL and does not decode, anywhere in the
    merged mapping, ends the whole job: the tool is never started and the
    request ends with a 400 of the loop or with an exception, nothing being
    sent then. *)
Theorem undecodable_entry_aborts files extra args name s e w :
  (name, JStr s) ∈ dict_merge files extra ->
  startswith s "data:" = false ->
  (startswith s "http:" || startswith s "https:") = false ->
  b64decode s = inl e ->
  exists c,
    calls (convert' files extra args w).2 = (calls w ++ c)%list /\
    popens c = [] /\
    ( ((convert' files extra args w).1 = Returned /\
       wire (convert' files extra args w).2 =
       (wire w ++ [Send_response 400; End_headers])%list)
      \/
      (exists e', (convert' files extra args w).1 = Raised e' /\
                  wire (convert' files extra args w).2 = wire w) ).
Proof.
  intros Hin Hdata Hhttp Hdec.
  pose proof (loop_stops_at _ _
                (fun w => undecodable_not_materialized name s e w Hdata Hhttp Hdec)
                Hin (sandbox_ready tmpdir w)) as Hstop.
  destruct (convert' files extra args w) as [r w'] eqn:Hrun. cbn [fst snd].
  apply convert_trace in Hrun as (cl & tail & Hcalls & Hcl & Hcase).
  eexists. split; [exact Hcalls|].
  destruct (trace_observers tmpdir cl tail Hcl) as (-> & _ & _).
  destruct Hcase as [[-> Hout] | (sargs & w1 & _ & Hloop & _)].
  - split; [reflexivity | exact Hout].
  - rewrite Hloop in Hstop. contradiction.
Qed.

Lemma nested_stops l name content p : forall w,
  flat fp (fs w) ->
  (name, content) ∈ l ->
  join_resolve fp name = inr p ->
  fp `prefix_of` p -> length fp + 2 <= length p ->
  (for_each l (materialize urlopen fp) w).1 <> Val tt.
Proof.
  induction l as [|x l IH]; intros w Hflat Hin Hp Hpre Hlen; [inversion Hin|].
  rewrite for_each_cons. apply elem_of_cons in Hin as [<-|Hin].
  - destruct (nested_not_materialized urlopen fp name content p w Hflat Hp Hpre Hlen)
      as [Hne _].
    destruct (materialize urlopen fp (name, content) w) as [[[]| |e] w1];
      [contradiction | discriminate..].
  - destruct (materialize urlopen fp x w) as [[[]| |e] w1] eqn:Hx; [|discriminate..].
    apply IH; try assumption.
    eapply (loop_flat urlopen fp [x]); [|exact Hflat].
    rewrite for_each_cons, Hx. reflexivity.
Qed.

(** X12: the handler makes no directory but [files]: in a fresh sandbox, an
    entry whose name resolves two or more levels below [files] cannot be
    opened, so a job that has one never starts the tool and is never
    answered 200; it ends with a 400 of the loop or with an exception,
    nothing being sent then. *)
Theorem nested_name_never_converted files extra args name content p w :
  fresh tmpdir (fs w) ->
  (name, content) ∈ dict_merge files extra ->
  join_resolve fp name = inr p ->
  fp `prefix_of` p ->
  length fp + 2 <= length p ->
  exists c,
    calls (convert' files extra args w).2 = (calls w ++ c)%list /\
    popens c = [] /\
    ( ((convert' files extra args w).1 = Returned /\
       wire (convert' files extra args w).2 =
       (wire w ++ [Send_response 400; End_headers])%list)
      \/
      (exists e, (convert' files extra args w).1 = Raised e /\
                 wire (convert' files extra args w).2 = wire w) ).
Proof.
  intros Hfresh Hin Hp Hpre Hlen.
  pose proof (nested_stops _ _ _ _ (sandbox_ready tmpdir w)
                (sandbox_ready_flat w Hfresh) Hin Hp Hpre Hlen) as Hstop.
  destruct (convert' files extra args w) as [r w'] eqn:Hrun. cbn [fst snd].
  apply convert_trace in Hrun as (cl & tail & Hcalls & Hcl & Hcase).
  eexists. split; [exact Hcalls|].
  destruct (trace_observers tmpdir cl tail Hcl) as (-> & _ & _).
  destruct Hcase as [[-> Hout] | (sargs & w1 & _ & Hloop & _)].
  - split; [reflexivity | exact Hout].
  - rewrite Hloop in Hstop. contradiction.
Qed.

Lemma convert_outside files extra args w (q : Path) :
  ~ tmpdir `prefix_of` q ->
  fs (convert' files extra args w).2 !! q = fs w !! q
  \/
  exists argv f1 done,
    pandoc argv fp f1 = inr done /\
    f1 !! q = fs w !! q /\
    fs (convert' files extra args w).2 !! q = fs_after done !! q.
Proof.
  intros Hq.
  assert (Hfp : ~ fp `prefix_of` q) by (intros H; eapply Hq, prefix_of_app_cons, H).
  destruct (convert' files extra args w) as [r w'] eqn:Hrun. cbn [snd].
  apply convert_exits in Hrun.
  destruct Hrun as [Hm | r w1 Hm Hloop Hr | e w1 Hm Hloop Hargs
                   | argv e w1 Hm Hloop Hargs Hrun | argv done w1 r w2 Hm Hloop Hargs Hrun Hresp];
    cbn [cleaned fs call set_fs]; rewrite rmtree_outside by assumption.
  - left. cbn [entered fs call set_fs]. apply lookup_insert_ne.
    intros ->. apply Hq. reflexivity.
  - left. rewrite (loop_outside urlopen _ _ _ _ _ Hloop q Hfp).
    apply sandbox_ready_outside, Hq.
  - left. rewrite (loop_outside urlopen _ _ _ _ _ Hloop q Hfp).
    apply sandbox_ready_outside, Hq.
  - left. rewrite (loop_outside urlopen _ _ _ _ _ Hloop q Hfp).
    apply sandbox_ready_outside, Hq.
  - right. exists argv, (fs w1), done. split; [exact Hrun|]. split.
    + rewrite (loop_outside urlopen _ _ _ _ _ Hloop q Hfp).
      apply sandbox_ready_outside, Hq.
    + destruct (respond_run done
                  (call (Communicate (returncode done) (stdout done) (stderr done))
                     (set_fs (fs_after done) (call (Popen argv fp) w1))))
        as (r' & w2' & Heq & _ & Hfs & _).
      rewrite Hresp in Heq. injection Heq as <- <-. rewrite Hfs. reflexivity.
Qed.

(** X13: outside the sandbox the handler changes nothing: at a path that is not
    at or below the sandbox, the file system after lines 92-151 is the one
    before, unless the tool has run, and then the tool was given the one
    before and what is there afterwards is what the tool left. *)
Theorem outside_untouched files extra args w (q : Path) :
  ~ tmpdir `prefix_of` q ->
  fs (convert' files extra args w).2 !! q = fs w !! q
  \/
  exists argv f1 done,
    pandoc argv fp f1 = inr done /\
    f1 !! q = fs w !! q /\
    fs (convert' files extra args w).2 !! q = fs_after done !! q.
Proof. apply convert_outside. Qed.

Lemma convert_leaves_no_trace files extra args w :
  fresh tmpdir (fs w) ->
  keeps_outside tmpdir pandoc ->
  fs (convert' files extra args w).2 = fs w.
Proof.
  intros Hfresh Htool. apply map_eq. intros q.
  destruct (decide (tmpdir `prefix_of` q)) as [Hq|Hq].
  - rewrite (Hfresh q Hq).
    destruct (convert' files extra args w) as [r w'] eqn:Hrun. cbn [snd].
    apply convert_exits in Hrun. destruct Hrun; apply cleaned_gone; exact Hq.
  - destruct (convert_outside files extra args w q Hq)
      as [H | (argv & f1 & done & Hrun & Hf1 & H)]; [exact H|].
    rewrite H, (Htool _ _ _ _ Hrun q Hq). exact Hf1.
Qed.

(** X14: with a sandbox name that is not in use and a tool that leaves alone
    what is outside the sandbox, a request leaves the file system exactly
    as it found it, whatever its outcome. *)
Theorem request_leaves_no_trace token self w :
  fresh tmpdir (fs w) ->
  keeps_outside tmpdir pandoc ->
  fs (do_POST' token self w).2 = fs w.
Proof.
  intros Hfresh Htool.
  destruct (do_POST_cases int loads tmpdir urlopen pandoc token self w)
    as [(_ & _ & H) | (files & extra & args & ->)]; [exact H|].
  apply convert_leaves_no_trace; assumption.
Qed.

End AroundSandbox.

(** ** These properties at concrete requests *)

Module MoreRuns.
Import Demo.

Local Abbreviation convert' := (convert tmpdir urlopen pandoc).
Local Abbreviation do_POST' token := (do_POST token int (fun _ => Parsed JNull) tmpdir urlopen pandoc).

Lemma fresh_empty : fresh tmpdir (fs world0).
Proof. intros q _. apply lookup_empty. Defined.

Lemma pandoc_keeps_outside : keeps_outside tmpdir pandoc.
Proof.
  intros argv cwd f done H q _. unfold pandoc in H.
  destruct (f !! (cwd ++ [nth (length argv - 3) argv ""])%list) as [[|content]|];
    injection H as <-; reflexivity.
Defined.

Lemma foreign_characters_ignored_witness :
  (isascii "IyBU aXRs
ZQ==" = true /\
   startswith "IyBU aXRs
ZQ==" "data:" = false /\
   (startswith "IyBU aXRs
ZQ==" "http:" || startswith "IyBU aXRs
ZQ==" "https:") = false) /\
  materialize urlopen files_path ("a.md", JStr "IyBU aXRs
ZQ==") (sandbox_ready tmpdir world0)
  = materialize urlopen files_path ("a.md", JStr "IyBUaXRsZQ==") (sandbox_ready tmpdir world0).
Proof.
  split; [split_and!; reflexivity|].
  rewrite <- (foreign_characters_ignored urlopen files_path "a.md" "IyBU aXRs
ZQ==" (sandbox_ready tmpdir world0) eq_refl eq_refl eq_refl).
  reflexivity.
Defined.

Lemma decoded_size_bound_witness :
  (startswith "IyBUaXRsZQ==" "data:" = false /\
   (startswith "IyBUaXRsZQ==" "http:" || startswith "IyBUaXRsZQ==" "https:") = false /\
   materialize urlopen files_path ("a.md", JStr "IyBUaXRsZQ==") (sandbox_ready tmpdir world0)
   = (Val tt,
      (materialize urlopen files_path ("a.md", JStr "IyBUaXRsZQ==")
         (sandbox_ready tmpdir world0)).2)) /\
  exists p data,
    join_resolve files_path "a.md" = inr p /\
    fs (materialize urlopen files_path ("a.md", JStr "IyBUaXRsZQ==")
          (sandbox_ready tmpdir world0)).2 !! p = Some (File data) /\
    4 * length data <= 3 * 12.
Proof.
  assert (H : materialize urlopen files_path ("a.md", JStr "IyBUaXRsZQ==")
                (sandbox_ready tmpdir world0)
              = (Val tt,
                 (materialize urlopen files_path ("a.md", JStr "IyBUaXRsZQ==")
                    (sandbox_ready tmpdir world0)).2)) by (vm_compute; reflexivity).
  split; [split_and!; [reflexivity.. | exact H]|].
  destruct (decoded_size_bound urlopen files_path "a.md" "IyBUaXRsZQ=="
              (sandbox_ready tmpdir world0) _ eq_refl eq_refl H)
    as (p & data & Hp & Hfs & _ & Hlen).
  exists p, data. auto.
Defined.

Lemma inline_forms_agree_witness :
  (startswith "data:,hi" "data:" = true /\ urlopen "data:,hi" = inr [x68; x69]) /\
  materialize urlopen files_path ("a.md", JStr "data:,hi") (sandbox_ready tmpdir world0) = 
  (Val tt,
   World (fs (materialize urlopen files_path ("a.md", JStr "aGk=")
                (sandbox_ready tmpdir world0)).2) []
     [ Mkdtemp tmpdir; Mkdir files_path;
       Open_wb (files_path ++ ["a.md"]); Urlopen "data:,hi";
       Write (files_path ++ ["a.md"]) [x68; x69] ]) /\
  fs (materialize urlopen files_path ("a.md", JStr "data:,hi")
        (sandbox_ready tmpdir world0)).2 !! (files_path ++ ["a.md"])%list
  = Some (File [x68; x69]).
Proof.
  split; [split; reflexivity|].
  destruct (inline_forms_agree urlopen files_path "a.md" "data:,hi" [x68; x69]
              (sandbox_ready tmpdir world0) eq_refl eq_refl)
    as (Hflow & Hfs & Hwire & _ & Hfile).
  split.
  - change "aGk=" with (Base64.b64encode [x68; x69]).
    rewrite <- Hfs.
    destruct (materialize urlopen files_path ("a.md", JStr "data:,hi")
                (sandbox_ready tmpdir world0)) as [r w'] eqn:Hrun.
    cbn [fst snd] in *.
    assert (Hcalls : calls w' =
                     [ Mkdtemp tmpdir; Mkdir files_path;
                       Open_wb (files_path ++ ["a.md"]); Urlopen "data:,hi";
                       Write (files_path ++ ["a.md"]) [x68; x69] ]).
    { apply (f_equal (fun x => calls x.2)) in Hrun. cbn [snd] in Hrun. rewrite <- Hrun.
      reflexivity. }
    rewrite Hflow. destruct w' as [f o c]. cbn [fs wire calls] in *.
    rewrite Hcalls, Hwire. reflexivity.
  - destruct Hfile as (p & Hp & Hlook); [rewrite Hflow; reflexivity|].
    injection Hp as <-. exact Hlook.
Defined.

Lemma undecodable_entry_aborts_witness :
  ((("b.md", JStr "A") ∈ dict_merge [("a.md", JStr "QQ=="); ("b.md", JStr "A")] []) /\
   startswith "A" "data:" = false /\
   (startswith "A" "http:" || startswith "A" "https:") = false /\
   b64decode "A" = inl BinasciiError) /\
  exists c,
    calls (convert' [("a.md", JStr "QQ=="); ("b.md", JStr "A")] [] [] world0).2
    = (calls world0 ++ c)%list /\
    popens c = [].
Proof.
  assert (H : ("b.md", JStr "A") ∈ dict_merge [("a.md", JStr "QQ=="); ("b.md", JStr "A")] []).
  { apply list_elem_of_In. vm_compute. right; left; reflexivity. }
  split; [split_and!; [exact H | reflexivity..]|].
  destruct (undecodable_entry_aborts tmpdir urlopen pandoc _ [] [] "b.md" "A" BinasciiError
              world0 H eq_refl eq_refl eq_refl) as (c & Hc & Hp & _).
  exists c. auto.
Defined.

Lemma body_errors_witness :
  (path (Request "/" [("Content-Type", "application/json")] (reader [])) = "/" /\
   authorized None (Request "/" [("Content-Type", "application/json")] (reader []))) /\
  do_POST' None (Request "/" [("Content-Type", "application/json")] (reader [])) world0
  = (Raised TypeError, world0) /\
  do_POST None (fun _ => Some (-2)%Z) (fun _ => Parsed JNull) tmpdir urlopen pandoc
    (Request "/" [("Content-Type", "application/json"); ("Content-Length", "-2")]
       (reader [x7b; x7d])) world0
  = (Raised ValueError, world0).
Proof.
  split; [split; [reflexivity | exact I]|]. split.
  - destruct (body_errors int (fun _ => Parsed JNull) tmpdir urlopen pandoc None
                (Request "/" [("Content-Type", "application/json")] (reader [])) world0
                eq_refl I) as (_ & H).
    destruct (H eq_refl) as (Hmissing & _). apply Hmissing. reflexivity.
  - destruct (body_errors (fun _ => Some (-2)%Z) (fun _ => Parsed JNull) tmpdir urlopen pandoc
                None
                (Request "/" [("Content-Type", "application/json"); ("Content-Length", "-2")]
                   (reader [x7b; x7d])) world0 eq_refl I) as (_ & H).
    destruct (H eq_refl) as (_ & Hlen).
    destruct (Hlen "-2" eq_refl) as (_ & Hint).
    destruct (Hint (-2)%Z eq_refl) as (Hread & _).
    apply (Hread ValueError). reflexivity.
Defined.

Lemma non_object_payload_witness :
  (forall members, JArr [JStr "files"] <> JObj members) /\
  handle_payload tmpdir urlopen pandoc (JArr [JStr "files"]) world0 = (Raised TypeError, world0) /\
  handle_payload tmpdir urlopen pandoc (JArr [JStr "a.md"]) world0
  = (Returned, rejected 400 world0).
Proof.
  split; [discriminate|]. split.
  - rewrite (non_object_payload tmpdir urlopen pandoc (JArr [JStr "files"]) world0)
      by discriminate.
    reflexivity.
  - rewrite (non_object_payload tmpdir urlopen pandoc (JArr [JStr "a.md"]) world0)
      by discriminate.
    reflexivity.
Defined.

Lemma unusable_args_witness :
  (JInt 1 ∈ [JStr "-s"; JInt 1] /\ (forall s, JInt 1 = JStr s -> has_nul s = true)) /\
  exists c,
    calls (convert' [("a.md", JStr "QQ==")] [] [JStr "-s"; JInt 1] world0).2
    = (calls world0 ++ c)%list /\
    popens c = [].
Proof.
  assert (H : JInt 1 ∈ [JStr "-s"; JInt 1]) by (right; left).
  split; [split; [exact H | discriminate]|].
  destruct (unusable_args tmpdir urlopen pandoc [("a.md", JStr "QQ==")] [] [JStr "-s"; JInt 1]
              (JInt 1) world0 H ltac:(discriminate)) as (c & Hc & Hp & _).
  exists c. auto.
Defined.

Lemma disk_after_loop_witness :
  for_each [("a.md", JStr "QQ=="); ("./a.md", JStr "Qg==")] (materialize urlopen files_path)
    (sandbox_ready tmpdir world0)
  = (Val tt,
     (for_each [("a.md", JStr "QQ=="); ("./a.md", JStr "Qg==")] (materialize urlopen files_path)
        (sandbox_ready tmpdir world0)).2) /\
  fs (for_each [("a.md", JStr "QQ=="); ("./a.md", JStr "Qg==")] (materialize urlopen files_path)
        (sandbox_ready tmpdir world0)).2 !! (files_path ++ ["a.md"])%list
  = Some (File [x42]).
Proof.
  assert (H : for_each [("a.md", JStr "QQ=="); ("./a.md", JStr "Qg==")]
                (materialize urlopen files_path) (sandbox_ready tmpdir world0)
              = (Val tt,
                 (for_each [("a.md", JStr "QQ=="); ("./a.md", JStr "Qg==")]
                    (materialize urlopen files_path) (sandbox_ready tmpdir world0)).2))
    by (vm_compute; reflexivity).
  split; [exact H|].
  destruct (disk_after_loop urlopen files_path _ _ _ H) as (c & Hc & _ & Hdisk).
  rewrite (Hdisk (files_path ++ ["a.md"])%list).
  vm_compute in Hc. injection Hc as <-. reflexivity.
Defined.

Lemma nested_name_never_converted_witness :
  (fresh tmpdir (fs world0) /\
   ("d/a.md", JStr "QQ==") ∈ dict_merge [("d/a.md", JStr "QQ==")] [] /\
   join_resolve files_path "d/a.md" = inr (files_path ++ ["d"; "a.md"])%list /\
   files_path `prefix_of` (files_path ++ ["d"; "a.md"])%list /\
   length files_path + 2 <= length (files_path ++ ["d"; "a.md"])%list) /\
  exists c,
    calls (convert' [("d/a.md", JStr "QQ==")] [] [] world0).2 = (calls world0 ++ c)%list /\
    popens c = [].
Proof.
  assert (H1 : ("d/a.md", JStr "QQ==") ∈ dict_merge [("d/a.md", JStr "QQ==")] []) by left.
  assert (H2 : files_path `prefix_of` (files_path ++ ["d"; "a.md"])%list)
    by (exists ["d"; "a.md"]; reflexivity).
  assert (H3 : length files_path + 2 <= length (files_path ++ ["d"; "a.md"])%list)
    by (cbn; lia).
  split; [split_and!; [exact fresh_empty | exact H1 | reflexivity | exact H2 | exact H3]|].
  destruct (nested_name_never_converted tmpdir urlopen pandoc _ [] [] _ _ _ world0
              fresh_empty H1 eq_refl H2 H3) as (c & Hc & Hp & _).
  exists c. auto.
Defined.

Lemma outside_untouched_witness :
  ~ tmpdir `prefix_of` ["etc"; "passwd"] /\
  fs (convert' [("/etc/passwd", JStr "QQ==")] [] [] world0).2 !! ["etc"; "passwd"] = None.
Proof.
  assert (H : ~ tmpdir `prefix_of` ["etc"; "passwd"]) by (intros [k [=]]).
  split; [exact H|].
  destruct (outside_untouched tmpdir urlopen pandoc [("/etc/passwd", JStr "QQ==")] [] []
              world0 ["etc"; "passwd"] H)
    as [E | (argv & f1 & done & Hrun & Hf1 & E)].
  - exact E.
  - rewrite E, (pandoc_keeps_outside _ _ _ _ Hrun _ H). exact Hf1.
Defined.

Lemma request_leaves_no_trace_witness :
  (fresh tmpdir (fs world0) /\ keeps_outside tmpdir pandoc) /\
  fs (run None
        (JObj [("files", JObj [("a.md", JStr "IyBUaXRsZQ==")]); ("args", JArr [])])
        json_request).2 = ∅.
Proof.
  split; [split; [exact fresh_empty | exact pandoc_keeps_outside]|].
  exact (request_leaves_no_trace int _ tmpdir urlopen pandoc None json_request world0
           fresh_empty pandoc_keeps_outside).
Defined.

End MoreRuns.
